(** * SPS30 I2C driver (u_sps30.py): a shallow embedding and its properties

    The driver is a MicroPython class [SPS30_I2C].  Its methods talk to an
    external I2C object, sleep, print to the console and mutate attributes
    that live on the class.  The embedding keeps all of that visible:

    - [bytes] objects are [list byte]; Python integers are [Z];
    - Python lists of integers (the command tables) are [list Z];
    - the class attributes that the methods mutate live in a [World],
      shared by every instance, next to the I2C environment (a script of
      transport outcomes) and the trace of observable events;
    - the attributes that [__init__] assigns live in the instance record;
    - methods are computations in a state-and-exception monad [M]. *)

From Stdlib Require Import ZArith Lia.
From Stdlib Require Import Strings.Byte Strings.Ascii Strings.String.
From stdpp Require Import gmap strings list fin_maps.

Local Open Scope Z_scope.

(** ** Python integers, bytes and slices *)

Definition Z_of_byte (b : byte) : Z := Z.of_N (Byte.to_N b).

(** [bytes([z])] for one element: defined only for 0 <= z <= 255. *)
Definition byte_of_Z (z : Z) : option byte :=
  if (0 <=? z) && (z <? 256) then Byte.of_N (Z.to_N z) else None.

(** Iterating a [bytes] object yields integers. *)
Definition ints (bs : list byte) : list Z := map Z_of_byte bs.

(** [data[i:j]] for 0 <= i <= j: never raises, truncates at the end. *)
Definition slice {A : Type} (i j : nat) (l : list A) : list A :=
  take (j - i) (drop i l).

(** [range(0, stop, step)] for a positive step. *)
Definition range_step (stop step : nat) : list nat :=
  map (fun k => (k * step)%nat) (seq 0 ((stop + (step - 1)) / step)%nat).

(** ** CRC-8 (method [_crc8]) *)

(** One pass of the inner loop body: shift, conditional xor, mask. *)
Definition crc8_shift (crc : Z) : Z :=
  Z.land
    (if negb (Z.land crc 0x80 =? 0)
     then Z.lxor (Z.shiftl crc 1) 0x31
     else Z.shiftl crc 1)
    0x0000FF.

(** [for _ in range(8)] *)
Definition crc8_byte (crc : Z) : Z :=
  Nat.iter 8 crc8_shift crc.

Definition _crc8 (data : list Z) : Z :=
  fold_left (fun crc byte => crc8_byte (Z.lxor crc byte)) data 0xFF.

(** ** Exceptions, console messages, events *)

Inductive exn : Type :=
| OSError        (* raised by the I2C object *)
| IndexError     (* sequence index out of range *)
| ValueError     (* bytes() of an integer outside 0..255 *)
| StructError    (* struct.unpack on a buffer of the wrong size *)
| UnicodeError.  (* decode('ascii') of a byte above 127 *)

Inductive res (A : Type) : Type :=
| Ret (a : A)
| Raise (e : exn).
Arguments Ret {A} a.
Arguments Raise {A} e.

(** The lines the modelled methods print.  Formatted numbers are kept as
    arguments. *)
Inductive message : Type :=
| MsgUnknownDatatype (datatype : string)
| MsgLenNotMultipleOf3
| MsgCrcMismatch (i : nat) (expected got : Z)
| MsgCrcCheckFailed
| MsgReadingRegister
| MsgI2CReadError (e : exn)
| MsgReadingFirmware
| MsgFirmwareReadError (e : exn)
| MsgReadingSerial
| MsgRawData (raw_data : list byte)
| MsgChars (chars : list Z)
| MsgProductTypeReadError (e : exn)
| MsgWakingUp
| MsgMeasurementStarted
| MsgStartMeasurementError (e : exn)
| MsgUintCrcError (i : nat) (expected got : Z)
| MsgDataReadError (e : exn).

Inductive event : Type :=
| EvWrite (bus : nat) (addr : Z) (buf : list byte)
| EvRead (bus : nat) (addr : Z) (nbytes : nat)
| EvSleep (ms : nat)
| EvPrint (m : message).

(** What the transport does at the next call.  For a write the payload of
    [Ok] is ignored; for a read it is the buffer returned. *)
Inductive outcome : Type :=
| Ok (buf : list byte)
| BusError.

(** ** Values stored in the dictionaries and objects returned *)

(** A float is kept as the 32 bits it was unpacked from. *)
Inductive value : Type :=
| VNone
| VBool (b : bool)
| VInt (z : Z)
| VFloat (bits : Z).

Inductive dict_name : Type := DictValues | DictRegister | DictFirmwareVersion.

(** Methods return [None], a list, a string, or a reference to one of the
    class dictionaries (the dictionary itself, not a copy). *)
Inductive pyobj : Type :=
| PyNone
| PyList (l : list value)
| PyStr (s : string)
| PyRef (d : dict_name).

(** ** The world: class attributes, transport script, trace *)

Record World : Type := mkWorld {
  CMD_START_MEASUREMENT : list Z;
  dict_values : gmap string value;
  dict_register : gmap string value;
  dict_firmware_version : gmap string value;
  script : list outcome;
  trace : list event
}.

(** The class body as executed at import time. *)
Definition class_world (sc : list outcome) : World :=
  {| CMD_START_MEASUREMENT := [0x00; 0x10];
     dict_values :=
       <["mc_pm1.0" := VNone]> (<["mc_pm2.5" := VNone]> (<["mc_pm4.0" := VNone]>
       (<["mc_pm10.0" := VNone]> (<["pc_pm0.5" := VNone]> (<["pc_pm1.0" := VNone]>
       (<["pc_pm2.5" := VNone]> (<["pc_pm4.0" := VNone]> (<["pc_pm10.0" := VNone]>
       (<["typical_size" := VNone]> ∅)))))))));
     dict_register :=
       <["Fan speed error" := VBool false]> (<["Laser error" := VBool false]>
       (<["Fan error" := VBool false]> ∅));
     dict_firmware_version := <["major" := VNone]> (<["minor" := VNone]> ∅);
     script := sc;
     trace := [] |}.

Definition _SPS_ADDR : Z := 0x69.
Definition CMD_READ_MEASURED_VALUES : list Z := [0x03; 0x00; 0x34].
Definition CMD_WAKEUP : list Z := [0x11; 0x03].
Definition CMD_SERIAL_NUMBER : list Z := [0xD0; 0x33].
Definition CMD_FIRMWARE_VERSION : list Z := [0xD1; 0x00].
Definition CMD_READ_STATUS_REGISTER : list Z := [0xD2; 0x06].

Definition DATA_FORMAT_IEEE754_float : Z := 0x03.
Definition DATA_FORMAT_unsigned_16_bit_integer : Z := 0x05.

Definition _values_keys : list string :=
  ["mc_pm1.0"; "mc_pm2.5"; "mc_pm4.0"; "mc_pm10.0"; "pc_pm0.5";
   "pc_pm1.0"; "pc_pm2.5"; "pc_pm4.0"; "pc_pm10.0"; "typical_size"]%string.

Definition NBYTES_MEASURED_VALUES_FLOAT : nat := 60.
Definition NBYTES_MEASURED_VALUES_INTEGER : nat := 30.
Definition NBYTES_SERIAL_NUMBER : nat := 48.
Definition NBYTES_FIRMWARE_VERSION : nat := 3.
Definition NBYTES_READ_STATUS_REGISTER : nat := 6.

(** ** The monad *)

Definition M (A : Type) : Type := World -> res A * World.

Definition ret {A} (a : A) : M A := fun w => (Ret a, w).
Definition raise {A} (e : exn) : M A := fun w => (Raise e, w).

Definition bind {A B} (m : M A) (k : A -> M B) : M B :=
  fun w => match m w with
           | (Ret a, w') => k a w'
           | (Raise e, w') => (Raise e, w')
           end.

(** [try: m  except Exception as e: h e] *)
Definition try_except {A} (m : M A) (h : exn -> M A) : M A :=
  fun w => match m w with
           | (Ret a, w') => (Ret a, w')
           | (Raise e, w') => h e w'
           end.

#[global] Instance M_ret : MRet M := @ret.
#[global] Instance M_bind : MBind M := fun A B k m => bind m k.

(** Appending observable events leaves the heap and the script alone. *)
Definition add_events (evs : list event) (w : World) : World :=
  {| CMD_START_MEASUREMENT := CMD_START_MEASUREMENT w;
     dict_values := dict_values w;
     dict_register := dict_register w;
     dict_firmware_version := dict_firmware_version w;
     script := script w;
     trace := trace w ++ evs |}.

Definition emit (ev : event) : M unit :=
  fun w => (Ret tt, add_events [ev] w).

Definition print (m : message) : M unit := emit (EvPrint m).
Definition time_sleep (ms : nat) : M unit := emit (EvSleep ms).

(** The next transport outcome; an exhausted script is a bus that no
    longer answers. *)
Definition next_outcome : M outcome :=
  fun w => match script w with
           | [] => (Ret BusError, w)
           | o :: rest =>
               (Ret o,
                {| CMD_START_MEASUREMENT := CMD_START_MEASUREMENT w;
                   dict_values := dict_values w;
                   dict_register := dict_register w;
                   dict_firmware_version := dict_firmware_version w;
                   script := rest;
                   trace := trace w |})
           end.

(** [i2c.writeto(addr, buf)] *)
Definition writeto (bus : nat) (addr : Z) (buf : list byte) : M unit :=
  emit (EvWrite bus addr buf) ;;
  o ← next_outcome;
  match o with
  | Ok _ => ret tt
  | BusError => raise OSError
  end.

(** [i2c.readfrom(addr, nbytes)] *)
Definition readfrom (bus : nat) (addr : Z) (nbytes : nat) : M (list byte) :=
  emit (EvRead bus addr nbytes) ;;
  o ← next_outcome;
  match o with
  | Ok buf => ret buf
  | BusError => raise OSError
  end.

(** [bytes(l)] for a list of integers. *)
Fixpoint bytes_of_ints (l : list Z) : option (list byte) :=
  match l with
  | [] => Some []
  | z :: rest =>
      match byte_of_Z z, bytes_of_ints rest with
      | Some b, Some bs => Some (b :: bs)
      | _, _ => None
      end
  end.

Definition py_bytes (l : list Z) : M (list byte) :=
  match bytes_of_ints l with
  | Some bs => ret bs
  | None => raise ValueError
  end.

(** [seq[i]] for a non-negative index. *)
Definition index {A} (l : list A) (i : nat) : M A :=
  match l !! i with
  | Some a => ret a
  | None => raise IndexError
  end.

(** ** [_verify_crc] *)

Fixpoint _verify_crc_loop (data : list byte) (idxs : list nat) : M bool :=
  match idxs with
  | [] => ret true
  | i :: rest =>
      let bytes_pair := slice i (i + 2) data in
      checksum ← index data (i + 2);
      let calculated_crc := _crc8 (ints bytes_pair) in
      if negb (calculated_crc =? Z_of_byte checksum)
      then print (MsgCrcMismatch i (Z_of_byte checksum) calculated_crc) ;;
           ret false
      else _verify_crc_loop data rest
  end.

Definition _verify_crc (data : list byte) : M bool :=
  if negb (length data mod 3 =? 0)%nat
  then print MsgLenNotMultipleOf3 ;; ret false
  else _verify_crc_loop data (range_step (length data) 3).

(** ** Instances and [__init__] *)

(** The attributes [__init__] assigns.  The dictionaries and the command
    tables are not among them: [self.dict_values] and the like resolve to
    the class attributes held in the [World]. *)
Record SPS30_I2C : Type := mkSPS30 {
  i2c : nat;
  datatype_init : string;
  datatype : Z;
  nbytes_measured_values : nat
}.

Definition __init__ (i2c : nat) (datatype : string) : M SPS30_I2C :=
  if String.eqb datatype "FP32"
  then ret (mkSPS30 i2c datatype DATA_FORMAT_IEEE754_float
              NBYTES_MEASURED_VALUES_FLOAT)
  else
    (if negb (String.eqb datatype "UI16")
     then print (MsgUnknownDatatype datatype)
     else ret tt) ;;
    ret (mkSPS30 i2c datatype DATA_FORMAT_unsigned_16_bit_integer
           NBYTES_MEASURED_VALUES_INTEGER).

(** Attribute lookup [self.<dict>]: not found on the instance, found on
    the class. *)
Definition deref (w : World) (d : dict_name) : gmap string value :=
  match d with
  | DictValues => dict_values w
  | DictRegister => dict_register w
  | DictFirmwareVersion => dict_firmware_version w
  end.

Definition self_dict (w : World) (self : SPS30_I2C) (d : dict_name)
  : gmap string value := deref w d.

(** [self.<dict>[key] = val] *)
Definition set_item (d : dict_name) (key : string) (val : value) : M unit :=
  fun w =>
    (Ret tt,
     {| CMD_START_MEASUREMENT := CMD_START_MEASUREMENT w;
        dict_values :=
          match d with DictValues => <[key := val]> (dict_values w)
                     | _ => dict_values w end;
        dict_register :=
          match d with DictRegister => <[key := val]> (dict_register w)
                     | _ => dict_register w end;
        dict_firmware_version :=
          match d with
          | DictFirmwareVersion => <[key := val]> (dict_firmware_version w)
          | _ => dict_firmware_version w end;
        script := script w;
        trace := trace w |}).

(** In-place growth of the list object bound to the class attribute
    [CMD_START_MEASUREMENT] ([extend] and [append]). *)
Definition extend_CMD_START_MEASUREMENT (l : list Z) : M unit :=
  fun w =>
    (Ret tt,
     {| CMD_START_MEASUREMENT := CMD_START_MEASUREMENT w ++ l;
        dict_values := dict_values w;
        dict_register := dict_register w;
        dict_firmware_version := dict_firmware_version w;
        script := script w;
        trace := trace w |}).

Definition get_CMD_START_MEASUREMENT : M (list Z) :=
  fun w => (Ret (CMD_START_MEASUREMENT w), w).

(** ** Status register, firmware version *)

(** [range(7, -1, -1)] *)
Definition msb_to_lsb : list Z := [7; 6; 5; 4; 3; 2; 1; 0].

Definition register_bits (register_data : list byte) : list bool :=
  flat_map
    (fun byte => map (fun i => Z.land (Z.shiftr byte i) 1 =? 1) msb_to_lsb)
    (ints register_data).

Definition read_status_register (self : SPS30_I2C) : M pyobj :=
  r ← try_except
        (cmd ← py_bytes CMD_READ_STATUS_REGISTER;
         writeto (i2c self) _SPS_ADDR cmd ;;
         time_sleep 100 ;;
         print MsgReadingRegister ;;
         register_raw ← readfrom (i2c self) _SPS_ADDR
                          NBYTES_READ_STATUS_REGISTER;
         ret (Some register_raw))
        (fun e => print (MsgI2CReadError e) ;; ret None);
  match r with
  | None => ret PyNone
  | Some register_raw =>
      ok ← _verify_crc register_raw;
      if negb ok
      then print MsgCrcCheckFailed ;; ret PyNone
      else
        let register_data := slice 0 2 register_raw ++ slice 3 5 register_raw in
        let register_bit := register_bits register_data in
        b21 ← index register_bit 21;
        set_item DictRegister "Fan speed error" (VBool b21) ;;
        b5 ← index register_bit 5;
        set_item DictRegister "Laser error" (VBool b5) ;;
        b4 ← index register_bit 4;
        set_item DictRegister "Fan error" (VBool b4) ;;
        ret (PyRef DictRegister)
  end.

Definition read_firmware_version (self : SPS30_I2C) : M pyobj :=
  cmd ← py_bytes CMD_FIRMWARE_VERSION;
  writeto (i2c self) _SPS_ADDR cmd ;;
  try_except
    (print MsgReadingFirmware ;;
     raw_data ← readfrom (i2c self) _SPS_ADDR NBYTES_FIRMWARE_VERSION;
     ok ← _verify_crc raw_data;
     if negb ok
     then print MsgCrcCheckFailed ;; ret PyNone
     else
       major ← index raw_data 0;
       set_item DictFirmwareVersion "major" (VInt (Z_of_byte major)) ;;
       minor ← index raw_data 1;
       set_item DictFirmwareVersion "minor" (VInt (Z_of_byte minor)) ;;
       ret (PyRef DictFirmwareVersion))
    (fun e => print (MsgFirmwareReadError e) ;; ret PyNone).

(** ** Serial number *)

(** Characters [str.strip()] removes (MicroPython: space, tab, newline,
    carriage return, vertical tab, form feed). *)
Definition is_space (c : ascii) : bool :=
  match byte_of_ascii c with
  | x20 | x09 | x0a | x0b | x0c | x0d => true
  | _ => false
  end.

Fixpoint lstrip_with (p : ascii -> bool) (s : list ascii) : list ascii :=
  match s with
  | [] => []
  | c :: rest => if p c then lstrip_with p rest else s
  end.

Definition rstrip_with (p : ascii -> bool) (s : list ascii) : list ascii :=
  rev (lstrip_with p (rev s)).

(** [s.strip()] *)
Definition str_strip (s : string) : string :=
  string_of_list_ascii
    (rstrip_with is_space (lstrip_with is_space (list_ascii_of_string s))).

(** [s.rstrip('0')] *)
Definition str_rstrip_0 (s : string) : string :=
  string_of_list_ascii
    (rstrip_with (fun c => Ascii.eqb c "0") (list_ascii_of_string s)).

(** [bs.decode('ascii')] *)
Definition decode_ascii (bs : list byte) : M string :=
  if forallb (fun b => Z_of_byte b <? 128) bs
  then ret (string_of_list_ascii (map ascii_of_byte bs))
  else raise UnicodeError.

(** The loop that drops every third byte:
    [for i in range(0, len(raw_data), 3): chars.extend(raw_data[i:i+2])] *)
Definition data_chars (raw_data : list byte) : list Z :=
  flat_map (fun i => ints (slice i (i + 2) raw_data))
           (range_step (length raw_data) 3).

Definition read_serial_number (self : SPS30_I2C) : M pyobj :=
  cmd ← py_bytes CMD_SERIAL_NUMBER;
  writeto (i2c self) _SPS_ADDR cmd ;;
  try_except
    (print MsgReadingSerial ;;
     raw_data ← readfrom (i2c self) _SPS_ADDR NBYTES_SERIAL_NUMBER;
     print (MsgRawData raw_data) ;;
     ok ← _verify_crc raw_data;
     if negb ok
     then print MsgCrcCheckFailed ;; ret PyNone
     else
       let chars := data_chars raw_data in
       print (MsgChars chars) ;;
       bs ← py_bytes chars;
       decoded ← decode_ascii bs;
       let string := str_strip decoded in
       ret (PyStr (str_rstrip_0 string)))
    (fun e => print (MsgProductTypeReadError e) ;; ret PyNone).

(** ** Housekeeping: [wakeup] *)

Definition wakeup (self : SPS30_I2C) : M pyobj :=
  try_except
    (print MsgWakingUp ;;
     cmd ← py_bytes CMD_WAKEUP;
     writeto (i2c self) _SPS_ADDR cmd ;;
     time_sleep 50 ;;
     cmd' ← py_bytes CMD_WAKEUP;
     writeto (i2c self) _SPS_ADDR cmd' ;;
     ret PyNone)
    (fun e => print (MsgI2CReadError e) ;; ret PyNone).

(** ** Measurements *)

Definition start_measurement (self : SPS30_I2C) : M pyobj :=
  (* data = self.CMD_START_MEASUREMENT binds the class list itself *)
  extend_CMD_START_MEASUREMENT [datatype self; 0x00] ;;
  data ← get_CMD_START_MEASUREMENT;
  extend_CMD_START_MEASUREMENT [_crc8 (slice 2 4 data)] ;;
  try_except
    (data ← get_CMD_START_MEASUREMENT;
     buf ← py_bytes data;
     writeto (i2c self) _SPS_ADDR buf ;;
     print MsgMeasurementStarted ;;
     time_sleep 20 ;;
     ret PyNone)
    (fun e => print (MsgStartMeasurementError e) ;; ret PyNone).

(** [struct.unpack(">H", b)[0]] *)
Definition unpack_H (b : list byte) : M Z :=
  match b with
  | [hi; lo] => ret (Z_of_byte hi * 256 + Z_of_byte lo)
  | _ => raise StructError
  end.

(** [struct.unpack('>f', b)[0]]: the big-endian 32-bit pattern of the
    float. *)
Definition unpack_f (b : list byte) : M Z :=
  match b with
  | [b3; b2; b1; b0] =>
      ret (Z.lor (Z.shiftl (Z_of_byte b3) 24)
          (Z.lor (Z.shiftl (Z_of_byte b2) 16)
          (Z.lor (Z.shiftl (Z_of_byte b1) 8) (Z_of_byte b0))))
  | _ => raise StructError
  end.

Fixpoint _parse_uint_data_loop (raw_data : list byte) (idxs : list nat)
    (data_values : list value) : M (list value) :=
  match idxs with
  | [] => ret data_values
  | i :: rest =>
      let data_pair := slice i (i + 2) raw_data in
      checksum ← index raw_data (i + 2);
      let calculated_crc := _crc8 (ints data_pair) in
      if negb (calculated_crc =? Z_of_byte checksum)
      then print (MsgUintCrcError i (Z_of_byte checksum) calculated_crc) ;;
           _parse_uint_data_loop raw_data rest data_values
      else
        value ← unpack_H data_pair;
        _parse_uint_data_loop raw_data rest (data_values ++ [VInt value])
  end.

Definition _parse_uint_data (raw_data : list byte) : M (list value) :=
  _parse_uint_data_loop raw_data (range_step (length raw_data) 3) [].

Fixpoint _parse_fp32_data_loop (raw_data : list byte) (idxs : list nat)
    (data_values : list value) : M (list value) :=
  match idxs with
  | [] => ret data_values
  | i :: rest =>
      let chunk := slice i (i + 2) raw_data ++ slice (i + 3) (i + 5) raw_data in
      value ← unpack_f chunk;
      _parse_fp32_data_loop raw_data rest (data_values ++ [VFloat value])
  end.

Definition _parse_fp32_data (raw_data : list byte) : M (list value) :=
  _verify_crc raw_data ;;   (* the result is dropped *)
  _parse_fp32_data_loop raw_data (range_step (length raw_data) 6) [].

(** [for key, val in zip(...): self.dict_values[key] = val] *)
Fixpoint store_values (kvs : list (string * value)) : M unit :=
  match kvs with
  | [] => ret tt
  | (key, val) :: rest => set_item DictValues key val ;; store_values rest
  end.

Definition read_data (self : SPS30_I2C) : M pyobj :=
  try_except
    (cmd ← py_bytes CMD_READ_MEASURED_VALUES;
     writeto (i2c self) _SPS_ADDR cmd ;;
     time_sleep 100 ;;
     raw_data ← readfrom (i2c self) _SPS_ADDR (nbytes_measured_values self);
     data_values ← (if String.eqb (datatype_init self) "UI16"
                    then _parse_uint_data raw_data
                    else _parse_fp32_data raw_data);
     store_values (zip _values_keys data_values) ;;
     ret (PyRef DictValues))
    (fun e => print (MsgDataReadError e) ;; ret (PyList [])).

(** ** Vocabulary for the statements *)

(** The write calls of a trace, in order: bus, address, buffer. *)
Definition writes (t : list event) : list (nat * Z * list byte) :=
  flat_map (fun ev => match ev with
                      | EvWrite bus addr buf => [(bus, addr, buf)]
                      | _ => []
                      end) t.

(** The console lines of a trace, in order. *)
Definition printed (t : list event) : list message :=
  flat_map (fun ev => match ev with EvPrint m => [m] | _ => [] end) t.

(** The checksum byte of a two-byte word, as a byte ([_crc8] never leaves
    0..255, see [crc8_range]). *)
Definition crc_byte (b0 b1 : byte) : byte :=
  default x00 (byte_of_Z (_crc8 (ints [b0; b1]))).

(** A frame assembled from data words: each word followed by its
    checksum. *)
Fixpoint frame_of_pairs (pairs : list (byte * byte)) : list byte :=
  match pairs with
  | [] => []
  | (b0, b1) :: rest => b0 :: b1 :: crc_byte b0 b1 :: frame_of_pairs rest
  end.

(** The 3-byte groups of a frame (a trailing incomplete group is dropped). *)
Fixpoint chunks3 (l : list byte) : list (byte * byte * byte) :=
  match l with
  | a :: b :: c :: rest => (a, b, c) :: chunks3 rest
  | _ => []
  end.

Fixpoint unchunks3 (gs : list (byte * byte * byte)) : list byte :=
  match gs with
  | [] => []
  | (a, b, c) :: rest => a :: b :: c :: unchunks3 rest
  end.

(** A pure reading of [_verify_crc]: the length is a multiple of 3 and
    every group carries the checksum of its two data bytes. *)
Definition group_ok (g : byte * byte * byte) : bool :=
  let '(b0, b1, checksum) := g in
  _crc8 (ints [b0; b1]) =? Z_of_byte checksum.

Definition crc_valid (data : list byte) : bool :=
  (length data mod 3 =? 0)%nat && forallb group_ok (chunks3 data).

(** Running a method: the world it leaves and what it returns. *)
Definition exec {A} (m : M A) (w : World) : World := snd (m w).
Definition result {A} (m : M A) (w : World) : res A := fst (m w).

(** The instances [__init__] builds for the two known datatypes. *)
Definition session_ui16 (bus : nat) : SPS30_I2C :=
  mkSPS30 bus "UI16" DATA_FORMAT_unsigned_16_bit_integer
    NBYTES_MEASURED_VALUES_INTEGER.

Definition session_fp32 (bus : nat) : SPS30_I2C :=
  mkSPS30 bus "FP32" DATA_FORMAT_IEEE754_float NBYTES_MEASURED_VALUES_FLOAT.

(** A computation that issues no write call. *)
Definition quiet {A} (m : M A) : Prop :=
  forall w, writes (trace (exec m w)) = writes (trace w).

(** What the transport answers to the n-th call from now (0-based). *)
Definition nth_outcome (sc : list outcome) (n : nat) : outcome :=
  default BusError (sc !! n).

(** The status register as one 32-bit word: the data bytes of groups 0
    and 1 (raw bytes 0, 1, 3, 4), most significant byte first. *)
Definition status_field (raw : list byte) : Z :=
  match raw with
  | d0 :: d1 :: _ :: d2 :: d3 :: _ =>
      Z.lor (Z.shiftl (Z_of_byte d0) 24)
        (Z.lor (Z.shiftl (Z_of_byte d1) 16)
           (Z.lor (Z.shiftl (Z_of_byte d2) 8) (Z_of_byte d3)))
  | _ => 0
  end.

(** Bit index [k] of that word, counted from the most significant bit. *)
Definition status_bit (raw : list byte) (k : Z) : bool :=
  Z.testbit (status_field raw) (31 - k).

(** The data bytes of a frame: every group without its checksum. *)
Definition data_bytes (raw : list byte) : list byte :=
  flat_map (fun g => [fst (fst g); snd (fst g)]) (chunks3 raw).

(** The text a frame carries. *)
Definition payload_string (raw : list byte) : string :=
  string_of_list_ascii (map ascii_of_byte (data_bytes raw)).

Definition is_ascii (bs : list byte) : bool :=
  forallb (fun b => Z_of_byte b <? 128) bs.

(** Frames for given texts: split into words, checksum after each. *)
Fixpoint pairs_of (l : list byte) : list (byte * byte) :=
  match l with
  | a :: b :: rest => (a, b) :: pairs_of rest
  | _ => []
  end.

Definition text_frame (s : string) : list byte :=
  frame_of_pairs (pairs_of (list_byte_of_string s)).

(** [n] NUL characters. *)
Definition nuls (n : nat) : string :=
  string_of_list_ascii (repeat (ascii_of_byte x00) n).

(** The serial-number scenario: "12345", three spaces, NUL padding. *)
Definition serial_12345_nul (n : nat) : string :=
  String.append "12345   " (nuls n).

(** A serial number padded with the digit zero and then spaces. *)
Definition serial_12345_zeros : string :=
  "12345000000000000000000000000   ".

(** A status frame with only bit 21 set. *)
Definition status_frame_bit21 : list byte :=
  frame_of_pairs [(x00, x00); (x04, x00)].

(** The big-endian 16-bit value of a group's two data bytes. *)
Definition be16 (g : byte * byte * byte) : Z :=
  Z_of_byte (fst (fst g)) * 256 + Z_of_byte (snd (fst g)).

(** The values of the groups whose checksum matches, in frame order. *)
Definition passing_values (raw : list byte) : list value :=
  map (fun g => VInt (be16 g)) (List.filter group_ok (chunks3 raw)).

(** The lines [_parse_uint_data] prints: one per failing group, [k] being
    the number of the first group of [gs]. *)
Fixpoint uint_crc_events (k : nat) (gs : list (byte * byte * byte))
  : list event :=
  match gs with
  | [] => []
  | (a, b, c) :: rest =>
      (if group_ok (a, b, c) then []
       else [EvPrint (MsgUintCrcError (k * 3) (Z_of_byte c)
                        (_crc8 (ints [a; b])))])
      ++ uint_crc_events (S k) rest
  end.

(** Item assignments applied to a dictionary, first to last. *)
Definition assign (kvs : list (string * value)) (d : gmap string value)
  : gmap string value :=
  fold_left (fun d kv => <[fst kv := snd kv]> d) kvs d.

Definition with_dict_values (d : gmap string value) (w : World) : World :=
  {| CMD_START_MEASUREMENT := CMD_START_MEASUREMENT w;
     dict_values := d;
     dict_register := dict_register w;
     dict_firmware_version := dict_firmware_version w;
     script := script w;
     trace := trace w |}.

(** An integer frame carrying 1..10 whose first checksum byte is wrong. *)
Definition uint_frame_bad_group0 : list byte :=
  [x00; x01; x00] ++
  frame_of_pairs [(x00, x02); (x00, x03); (x00, x04); (x00, x05); (x00, x06);
                  (x00, x07); (x00, x08); (x00, x09); (x00, x0a)].

(** A float frame carrying ten times 1.0 (0x3F800000), and the same frame
    with its first data byte changed from 0x3F to 0x40. *)
Definition fp32_frame_ones : list byte :=
  frame_of_pairs (concat (repeat [(x3f, x80); (x00, x00)] 10)).

Definition fp32_frame_corrupt : list byte := x40 :: drop 1 fp32_frame_ones.

(** An integer frame carrying 1..10 with every checksum right. *)
Definition uint_frame_1_10 : list byte :=
  frame_of_pairs [(x00, x01); (x00, x02); (x00, x03); (x00, x04); (x00, x05);
                  (x00, x06); (x00, x07); (x00, x08); (x00, x09); (x00, x0a)].

(** A firmware-version frame for version 2.3. *)
Definition firmware_frame_2_3 : list byte := frame_of_pairs [(x02, x03)].

(** What [read_firmware_version] stores for a frame. *)
Definition firmware_update (raw : list byte) (d : gmap string value)
  : gmap string value :=
  match raw with
  | major :: minor :: _ =>
      <["minor" := VInt (Z_of_byte minor)]>
        (<["major" := VInt (Z_of_byte major)]> d)
  | _ => d
  end.

(** What [read_status_register] stores for a frame. *)
Definition register_update (raw : list byte) (d : gmap string value)
  : gmap string value :=
  <["Fan error" := VBool (status_bit raw 4)]>
    (<["Laser error" := VBool (status_bit raw 5)]>
       (<["Fan speed error" := VBool (status_bit raw 21)]> d)).

(** ** The remaining methods *)

Definition CMD_STOP_MEASUREMENT : list Z := [0x01; 0x04].
Definition CMD_READ_DATA_READY_FLAG : list Z := [0x02; 0x02].
Definition CMD_SLEEP : list Z := [0x10; 0x01].
Definition CMD_START_FAN_CLEANING : list Z := [0x56; 0x07].
Definition CMD_AUTO_CLEANING_INTERVAL : list Z := [0x80; 0x04].
Definition CMD_PRODUCT_TYPE : list Z := [0xD0; 0x02].
Definition CMD_CLEAR_STATUS_REGISTER : list Z := [0xD2; 0x10].
Definition CMD_RESET : list Z := [0xD3; 0x04].

Definition NBYTES_READ_DATA_READY_FLAG : nat := 3.
Definition NBYTES_AUTO_CLEANING_INTERVAL : nat := 6.
Definition NBYTES_PRODUCT_TYPE : nat := 12.

(** [read_auto_cleaning_interval] has no [try]: every exception leaves the
    method.  It returns an integer or None. *)
Definition read_auto_cleaning_interval (self : SPS30_I2C) : M (option Z) :=
  cmd ← py_bytes CMD_AUTO_CLEANING_INTERVAL;
  writeto (i2c self) _SPS_ADDR cmd ;;
  raw_data ← readfrom (i2c self) _SPS_ADDR NBYTES_AUTO_CLEANING_INTERVAL;
  ok ← _verify_crc raw_data;
  if negb ok
  then print MsgCrcCheckFailed ;; ret None
  else
    let interval :=
      flat_map (fun i => ints (slice i (i + 2) raw_data))
               (range_step NBYTES_AUTO_CLEANING_INTERVAL 3) in
    i0 ← index interval 0;
    i1 ← index interval 1;
    i2 ← index interval 2;
    i3 ← index interval 3;
    ret (Some (Z.lor (Z.lor (Z.lor (Z.shiftl i0 24) (Z.shiftl i1 16))
                        (Z.shiftl i2 8)) i3)).

(** The other methods print lines of their own.  They are kept in a
    console log beside the world, each with the number of events the
    trace held when it was printed; lines whose text is one of [message]
    go to the trace as before. *)
Inductive line : Type :=
| LineClearStatusError (e : exn)
| LineReadingProductType
| LineSleepMode
| LineSleepError (e : exn)
| LineSelfCleaning
| LineReadingDataReadyFlag
| LineCrcCheckFailedFlag
| LineMeasurementStopped
| LineStopMeasurementError (e : exn).

Record Console : Type := mkConsole {
  world : World;
  lines : list (nat * line)
}.

Definition MC (A : Type) : Type := Console -> res A * Console.

Definition retC {A} (a : A) : MC A := fun c => (Ret a, c).

Definition bindC {A B} (m : MC A) (k : A -> MC B) : MC B :=
  fun c => match m c with
           | (Ret a, c') => k a c'
           | (Raise e, c') => (Raise e, c')
           end.

Definition try_exceptC {A} (m : MC A) (h : exn -> MC A) : MC A :=
  fun c => match m c with
           | (Ret a, c') => (Ret a, c')
           | (Raise e, c') => h e c'
           end.

#[global] Instance MC_ret : MRet MC := @retC.
#[global] Instance MC_bind : MBind MC := fun A B k m => bindC m k.

(** A computation on the world, run beside the console log. *)
Definition lift {A} (m : M A) : MC A :=
  fun c => match m (world c) with
           | (r, w') => (r, mkConsole w' (lines c))
           end.

Definition print_line (l : line) : MC unit :=
  fun c => (Ret tt,
            mkConsole (world c) (lines c ++ [(length (trace (world c)), l)])).

Definition clear_status_register (self : SPS30_I2C) : MC pyobj :=
  try_exceptC
    (cmd ← lift (py_bytes CMD_CLEAR_STATUS_REGISTER);
     lift (writeto (i2c self) _SPS_ADDR cmd) ;;
     retC PyNone)
    (fun e => print_line (LineClearStatusError e) ;; retC PyNone).

Definition sleep (self : SPS30_I2C) : MC pyobj :=
  print_line LineSleepMode ;;
  try_exceptC
    (cmd ← lift (py_bytes CMD_SLEEP);
     lift (writeto (i2c self) _SPS_ADDR cmd) ;;
     retC PyNone)
    (fun e => print_line (LineSleepError e) ;; retC PyNone).

Definition start_fan_cleaning (self : SPS30_I2C) : MC pyobj :=
  try_exceptC
    (print_line LineSelfCleaning ;;
     cmd ← lift (py_bytes CMD_START_FAN_CLEANING);
     lift (writeto (i2c self) _SPS_ADDR cmd) ;;
     retC PyNone)
    (fun e => lift (print (MsgI2CReadError e)) ;; retC PyNone).

Definition stop_measurement (self : SPS30_I2C) : MC pyobj :=
  try_exceptC
    (cmd ← lift (py_bytes CMD_STOP_MEASUREMENT);
     lift (writeto (i2c self) _SPS_ADDR cmd) ;;
     print_line LineMeasurementStopped ;;
     lift (time_sleep 20) ;;
     retC PyNone)
    (fun e => print_line (LineStopMeasurementError e) ;; retC PyNone).

(** Returns True, False or None. *)
Definition read_data_ready_flag (self : SPS30_I2C) : MC (option bool) :=
  cmd ← lift (py_bytes CMD_READ_DATA_READY_FLAG);
  lift (writeto (i2c self) _SPS_ADDR cmd) ;;
  try_exceptC
    (print_line LineReadingDataReadyFlag ;;
     raw_data ← lift (readfrom (i2c self) _SPS_ADDR NBYTES_READ_DATA_READY_FLAG);
     ok ← lift (_verify_crc raw_data);
     if negb ok
     then print_line LineCrcCheckFailedFlag ;; retC None
     else
       b1 ← lift (index raw_data 1);
       let flag := if Z_of_byte b1 =? 0x01 then true else false in
       retC (Some flag))
    (fun e => lift (print (MsgI2CReadError e)) ;; retC None).

Definition read_product_type (self : SPS30_I2C) : MC pyobj :=
  cmd ← lift (py_bytes CMD_PRODUCT_TYPE);
  lift (writeto (i2c self) _SPS_ADDR cmd) ;;
  try_exceptC
    (print_line LineReadingProductType ;;
     raw_data ← lift (readfrom (i2c self) _SPS_ADDR NBYTES_PRODUCT_TYPE);
     ok ← lift (_verify_crc raw_data);
     if negb ok
     then lift (print MsgCrcCheckFailed) ;; retC PyNone
     else
       let chars := data_chars raw_data in
       bs ← lift (py_bytes chars);
       decoded ← lift (decode_ascii bs);
       let string := str_strip decoded in
       retC (PyStr string))
    (fun e => lift (print (MsgProductTypeReadError e)) ;; retC PyNone).

(** ** More vocabulary *)

Definition execC {A} (m : MC A) (c : Console) : Console := snd (m c).
Definition resultC {A} (m : MC A) (c : Console) : res A := fst (m c).

(** A console that has printed nothing, on a given world. *)
Definition console_of (w : World) : Console := mkConsole w [].

(** The read calls of a trace, in order: bus, address, length. *)
Definition reads (t : list event) : list (nat * Z * nat) :=
  flat_map (fun ev => match ev with
                      | EvRead bus addr n => [(bus, addr, n)]
                      | _ => []
                      end) t.

(** A computation that leaves an observation [f] of the world as it was. *)
Definition preserves {A X} (f : World -> X) (m : M A) : Prop :=
  forall w, f (exec m w) = f w.

(** The byte of an integer in 0..255. *)
Definition byte_of (z : Z) : byte := default x00 (byte_of_Z z).

(** Big-endian words and the frames that carry them. *)
Definition uint_pair (v : Z) : byte * byte :=
  (byte_of (v / 256), byte_of (v mod 256)).

Definition uint_frame (vs : list Z) : list byte :=
  frame_of_pairs (map uint_pair vs).

Definition word32_pairs (x : Z) : list (byte * byte) :=
  [(byte_of (x / 16777216), byte_of ((x / 65536) mod 256));
   (byte_of ((x / 256) mod 256), byte_of (x mod 256))].

Definition word32_frame (xs : list Z) : list byte :=
  frame_of_pairs (flat_map word32_pairs xs).

(** All byte values. *)
Definition byte_values : list Z := map Z.of_nat (seq 0 256).

(** The big-endian 32-bit number of four bytes, and of the four data
    bytes of a two-group frame. *)
Definition be32 (b3 b2 b1 b0 : byte) : Z :=
  ((Z_of_byte b3 * 256 + Z_of_byte b2) * 256 + Z_of_byte b1) * 256
  + Z_of_byte b0.

Definition frame_word (raw : list byte) : Z :=
  match raw with
  | d0 :: d1 :: _ :: d2 :: d3 :: _ => be32 d0 d1 d2 d3
  | _ => 0
  end.

(** The 6-byte blocks of a float frame, without their two checksum bytes
    (a trailing incomplete block is dropped), and the values they hold. *)
Fixpoint chunks6 (l : list byte) : list (byte * byte * byte * byte) :=
  match l with
  | b3 :: b2 :: _ :: b1 :: b0 :: _ :: rest => (b3, b2, b1, b0) :: chunks6 rest
  | _ => []
  end.

Definition fp32_values (raw : list byte) : list value :=
  map (fun b => VFloat (be32 (fst (fst (fst b))) (snd (fst (fst b)))
                          (snd (fst b)) (snd b)))
      (chunks6 raw).

(** Consecutive 16-bit values read two at a time as one 32-bit pattern. *)
Fixpoint pair_words (vs : list Z) : list value :=
  match vs with
  | a :: b :: rest => VFloat (a * 65536 + b) :: pair_words rest
  | _ => []
  end.

(** A computation whose returned values all satisfy [P] (it may raise). *)
Definition returns {A} (P : A -> Prop) (m : M A) : Prop :=
  forall w, match result m w with Ret a => P a | Raise _ => True end.

(** A serial-number frame whose last checksum byte is wrong. *)
Definition serial_frame_bad_crc : list byte :=
  <[47%nat := x00]> (text_frame serial_12345_zeros).

(** A product-type text with blanks around it. *)
Definition product_type_padded : string := " 000800 ".

(** * Properties *)

(** ** Bytes and integers *)

Lemma Z_of_byte_range (b : byte) : 0 <= Z_of_byte b < 256.
Proof.
  unfold Z_of_byte. pose proof (Byte.to_N_bounded b) as Hb.
  lia.
Qed.

Lemma byte_of_Z_of_byte (b : byte) : byte_of_Z (Z_of_byte b) = Some b.
Proof.
  unfold byte_of_Z. pose proof (Z_of_byte_range b) as Hr.
  replace (0 <=? Z_of_byte b) with true by (symmetry; apply Z.leb_le; lia).
  replace (Z_of_byte b <? 256) with true by (symmetry; apply Z.ltb_lt; lia).
  cbn [andb]. unfold Z_of_byte. rewrite N2Z.id. apply Byte.of_to_N.
Qed.

Lemma byte_of_Z_in_range (z : Z) :
  0 <= z < 256 -> exists b, byte_of_Z z = Some b /\ Z_of_byte b = z.
Proof.
  intros Hz. unfold byte_of_Z.
  replace (0 <=? z) with true by (symmetry; apply Z.leb_le; lia).
  replace (z <? 256) with true by (symmetry; apply Z.ltb_lt; lia).
  cbn [andb].
  destruct (Byte.of_N (Z.to_N z)) as [b|] eqn:Hb.
  - exists b. split; [reflexivity|].
    apply Byte.to_of_N in Hb. unfold Z_of_byte. rewrite Hb. lia.
  - apply Byte.of_N_None_iff in Hb. lia.
Qed.

Lemma bytes_of_ints_ints (bs : list byte) : bytes_of_ints (ints bs) = Some bs.
Proof.
  induction bs as [|b bs IH]; [reflexivity|].
  cbn. rewrite byte_of_Z_of_byte. unfold ints in IH. rewrite IH. reflexivity.
Qed.

(** ** The checksum stays within a byte *)

Lemma crc8_shift_range (crc : Z) : 0 <= crc8_shift crc < 256.
Proof.
  unfold crc8_shift. change 0x0000FF with (Z.ones 8).
  rewrite Z.land_ones by lia. apply Z.mod_pos_bound. reflexivity.
Qed.

Lemma crc8_byte_range (crc : Z) : 0 <= crc8_byte crc < 256.
Proof. unfold crc8_byte. cbn [Nat.iter]. apply crc8_shift_range. Qed.

Lemma crc8_range (data : list Z) : 0 <= _crc8 data < 256.
Proof.
  unfold _crc8.
  assert (Hgen : forall acc, 0 <= acc < 256 ->
            0 <= fold_left (fun crc byte => crc8_byte (Z.lxor crc byte)) data acc < 256).
  { induction data as [|z data IH]; intros acc Hacc; cbn [fold_left].
    - exact Hacc.
    - apply IH, crc8_byte_range. }
  apply Hgen. lia.
Qed.

Lemma Z_of_crc_byte (b0 b1 : byte) :
  Z_of_byte (crc_byte b0 b1) = _crc8 (ints [b0; b1]).
Proof.
  unfold crc_byte.
  destruct (byte_of_Z_in_range _ (crc8_range (ints [b0; b1])))
    as (b & Hb & Hz).
  rewrite Hb. exact Hz.
Qed.

(** ** Running monadic code *)

Lemma run_bind {A B} (m : M A) (k : A -> M B) (w : World) :
  (m ≫= k) w = match m w with
               | (Ret a, w') => k a w'
               | (Raise e, w') => (Raise e, w')
               end.
Proof. reflexivity. Qed.

Lemma run_bind_ret {A B} (m : M A) (k : A -> M B) (w w' : World) (a : A) :
  m w = (Ret a, w') -> (m ≫= k) w = k a w'.
Proof. intros H. rewrite run_bind, H. reflexivity. Qed.

Lemma run_bind_raise {A B} (m : M A) (k : A -> M B) (w w' : World) e :
  m w = (Raise e, w') -> (m ≫= k) w = (Raise e, w').
Proof. intros H. rewrite run_bind, H. reflexivity. Qed.

Lemma add_events_nil (w : World) : add_events [] w = w.
Proof. destruct w. unfold add_events. cbn. rewrite app_nil_r. reflexivity. Qed.

Lemma add_events_app (e1 e2 : list event) (w : World) :
  add_events e2 (add_events e1 w) = add_events (e1 ++ e2) w.
Proof. unfold add_events. cbn. rewrite app_assoc. reflexivity. Qed.

(** ** Groups of a frame *)

Lemma range_step_3 (n : nat) :
  range_step (n * 3) 3 = map (fun k => (k * 3)%nat) (seq 0 n).
Proof.
  unfold range_step. do 2 f_equal.
  change (3 - 1)%nat with 2%nat.
  rewrite Nat.div_add_l by discriminate. cbn. lia.
Qed.

Lemma length_unchunks3 (gs : list (byte * byte * byte)) :
  length (unchunks3 gs) = (length gs * 3)%nat.
Proof.
  induction gs as [|[[a b] c] gs IH]; [reflexivity|].
  cbn [unchunks3 length]. rewrite IH. reflexivity.
Qed.

Lemma chunks3_unchunks3 (gs : list (byte * byte * byte)) :
  chunks3 (unchunks3 gs) = gs.
Proof.
  induction gs as [|[[a b] c] gs IH]; cbn; [reflexivity|].
  f_equal. exact IH.
Qed.

Lemma unchunks3_chunks3 (n : nat) (l : list byte) :
  length l = (n * 3)%nat -> unchunks3 (chunks3 l) = l /\ length (chunks3 l) = n.
Proof.
  revert l. induction n as [|n IH]; intros l Hl.
  - destruct l; [split; reflexivity | discriminate].
  - destruct l as [|a [|b [|c rest]]]; try discriminate.
    cbn in Hl. destruct (IH rest) as [Hu Hn]; [lia|].
    cbn. rewrite Hu, Hn. split; reflexivity.
Qed.

Lemma mod3_length (l : list byte) :
  (length l mod 3 = 0)%nat -> exists n, length l = (n * 3)%nat.
Proof.
  intros H. exists (length l / 3)%nat.
  pose proof (Nat.div_mod_eq (length l) 3). lia.
Qed.

Lemma group_at (pre rest : list byte) (a b c : byte) (k : nat) :
  length pre = (k * 3)%nat ->
  slice (k * 3) (k * 3 + 2) (pre ++ a :: b :: c :: rest) = [a; b] /\
  (pre ++ a :: b :: c :: rest) !! (k * 3 + 2)%nat = Some c.
Proof.
  intros Hk. split.
  - unfold slice. replace (k * 3 + 2 - k * 3)%nat with 2%nat by lia.
    rewrite drop_app_length' by (symmetry; exact Hk). reflexivity.
  - rewrite lookup_app_r by lia.
    replace (k * 3 + 2 - length pre)%nat with 2%nat by lia. reflexivity.
Qed.

(** ** [_verify_crc] against its pure reading *)

Lemma forallb_cons {A} (f : A -> bool) (x : A) (l : list A) :
  forallb f (x :: l) = f x && forallb f l.
Proof. reflexivity. Qed.

Lemma group_ok_eq (a b c : byte) :
  group_ok (a, b, c) = (_crc8 (ints [a; b]) =? Z_of_byte c).
Proof. reflexivity. Qed.

Lemma verify_loop_step (data : list byte) (i : nat) (rest : list nat)
    (p : list byte) (c : byte) (w : World) :
  slice i (i + 2) data = p ->
  data !! (i + 2)%nat = Some c ->
  _verify_crc_loop data (i :: rest) w =
    if _crc8 (ints p) =? Z_of_byte c
    then _verify_crc_loop data rest w
    else (Ret false,
          add_events [EvPrint (MsgCrcMismatch i (Z_of_byte c) (_crc8 (ints p)))] w).
Proof.
  intros Hp Hc. cbn [_verify_crc_loop]. rewrite Hp.
  unfold index. rewrite run_bind, Hc. unfold ret at 1.
  destruct (_crc8 (ints p) =? Z_of_byte c); reflexivity.
Qed.

Lemma verify_loop_ok (gs : list (byte * byte * byte)) :
  forallb group_ok gs = true ->
  forall (pre : list byte) (k : nat) (w : World),
    length pre = (k * 3)%nat ->
    _verify_crc_loop (pre ++ unchunks3 gs)
      (map (fun k => (k * 3)%nat) (seq k (length gs))) w = (Ret true, w).
Proof.
  induction gs as [|[[a b] c] gs IH]; intros Hok pre k w Hk; [reflexivity|].
  rewrite forallb_cons in Hok. apply andb_prop in Hok as [Hg Hrest].
  cbn [length seq map unchunks3].
  destruct (group_at pre (unchunks3 gs) a b c k Hk) as [Hs Hi].
  rewrite (verify_loop_step _ _ _ _ _ w Hs Hi).
  rewrite group_ok_eq in Hg. rewrite Hg.
  specialize (IH Hrest (pre ++ [a; b; c]) (S k) w).
  rewrite <- app_assoc in IH. apply IH.
  rewrite length_app, Hk. cbn [length]. lia.
Qed.

Lemma verify_loop_bad (gs : list (byte * byte * byte)) :
  forallb group_ok gs = false ->
  forall (pre : list byte) (k : nat) (w : World),
    length pre = (k * 3)%nat ->
    exists i expected got,
      _verify_crc_loop (pre ++ unchunks3 gs)
        (map (fun k => (k * 3)%nat) (seq k (length gs))) w
      = (Ret false, add_events [EvPrint (MsgCrcMismatch i expected got)] w).
Proof.
  induction gs as [|[[a b] c] gs IH]; intros Hbad pre k w Hk; [discriminate|].
  cbn [length seq map unchunks3].
  destruct (group_at pre (unchunks3 gs) a b c k Hk) as [Hs Hi].
  rewrite (verify_loop_step _ _ _ _ _ w Hs Hi).
  rewrite forallb_cons, group_ok_eq in Hbad.
  destruct (_crc8 (ints [a; b]) =? Z_of_byte c) eqn:Hg.
  - rewrite andb_true_l in Hbad.
    specialize (IH Hbad (pre ++ [a; b; c]) (S k) w).
    rewrite <- app_assoc in IH. apply IH.
    rewrite length_app, Hk. cbn [length]. lia.
  - eexists _, _, _. reflexivity.
Qed.

Lemma verify_crc_valid (data : list byte) (w : World) :
  crc_valid data = true -> _verify_crc data w = (Ret true, w).
Proof.
  unfold crc_valid. intros H. apply andb_prop in H as [Hlen Hgs].
  unfold _verify_crc. rewrite Hlen. cbn [negb].
  apply Nat.eqb_eq in Hlen. destruct (mod3_length data Hlen) as [n Hn].
  destruct (unchunks3_chunks3 n data Hn) as [Hu Hc].
  rewrite Hn, range_step_3.
  pose proof (verify_loop_ok (chunks3 data) Hgs [] 0%nat w eq_refl) as Hrun.
  rewrite app_nil_l, Hu, Hc in Hrun. exact Hrun.
Qed.

Lemma verify_crc_invalid (data : list byte) (w : World) :
  crc_valid data = false ->
  exists m, _verify_crc data w = (Ret false, add_events [EvPrint m] w).
Proof.
  unfold crc_valid, _verify_crc. intros H.
  destruct (length data mod 3 =? 0)%nat eqn:Hlen; cbn [negb].
  - rewrite andb_true_l in H.
    apply Nat.eqb_eq in Hlen. destruct (mod3_length data Hlen) as [n Hn].
    destruct (unchunks3_chunks3 n data Hn) as [Hu Hc].
    rewrite Hn, range_step_3.
    destruct (verify_loop_bad (chunks3 data) H [] 0%nat w eq_refl)
      as (i & e & g & Hrun).
    rewrite app_nil_l, Hu, Hc in Hrun.
    eexists. exact Hrun.
  - eexists. reflexivity.
Qed.

(** ** Checksum generation followed by verification *)

Lemma frame_of_pairs_chunks (pairs : list (byte * byte)) :
  frame_of_pairs pairs
  = unchunks3 (map (fun p => (fst p, snd p, crc_byte (fst p) (snd p))) pairs).
Proof.
  induction pairs as [|[b0 b1] pairs IH]; [reflexivity|].
  cbn [frame_of_pairs map unchunks3 fst snd]. rewrite IH. reflexivity.
Qed.

Lemma frame_of_pairs_valid (pairs : list (byte * byte)) :
  crc_valid (frame_of_pairs pairs) = true.
Proof.
  unfold crc_valid. rewrite frame_of_pairs_chunks.
  rewrite length_unchunks3, chunks3_unchunks3, Nat.Div0.mod_mul.
  rewrite Nat.eqb_refl, andb_true_l.
  induction pairs as [|[b0 b1] pairs IH]; [reflexivity|].
  cbn [map fst snd]. rewrite forallb_cons, IH, andb_true_r.
  rewrite group_ok_eq, Z_of_crc_byte. apply Z.eqb_refl.
Qed.

(** C9.  For every list of byte pairs, the frame made of the groups
    (b0, b1, _crc8([b0, b1])) -- numerically exactly those bytes, 3N of
    them -- passes [_verify_crc]: it returns True, prints nothing and
    changes nothing. *)
Theorem verify_crc_roundtrip (pairs : list (byte * byte)) (w : World) :
  ints (frame_of_pairs pairs)
  = flat_map (fun p => [Z_of_byte (fst p); Z_of_byte (snd p);
                        _crc8 [Z_of_byte (fst p); Z_of_byte (snd p)]]) pairs
  /\ length (frame_of_pairs pairs) = (3 * length pairs)%nat
  /\ _verify_crc (frame_of_pairs pairs) w = (Ret true, w).
Proof.
  split; [|split].
  - induction pairs as [|[b0 b1] pairs IH]; [reflexivity|].
    cbn [frame_of_pairs ints map flat_map fst snd app].
    rewrite Z_of_crc_byte. unfold ints in IH. rewrite IH. reflexivity.
  - rewrite frame_of_pairs_chunks, length_unchunks3, length_map. lia.
  - apply verify_crc_valid, frame_of_pairs_valid.
Qed.

(** ** Stepping through methods *)

Ltac mrun :=
  cbv [exec result try_except mbind M_bind bind mret M_ret ret raise emit
       print time_sleep next_outcome writeto readfrom py_bytes index set_item
       extend_CMD_START_MEASUREMENT get_CMD_START_MEASUREMENT add_events
       negb];
  cbn [fst snd CMD_START_MEASUREMENT dict_values dict_register
       dict_firmware_version script trace
       i2c datatype_init datatype nbytes_measured_values].

Lemma writes_app (t1 t2 : list event) :
  writes (t1 ++ t2) = writes t1 ++ writes t2.
Proof. unfold writes. apply flat_map_app. Qed.

Lemma printed_app (t1 t2 : list event) :
  printed (t1 ++ t2) = printed t1 ++ printed t2.
Proof. unfold printed. apply flat_map_app. Qed.

Ltac norm_trace :=
  rewrite ?writes_app, ?printed_app; cbn [writes printed flat_map app];
  rewrite <- ?app_assoc, ?app_nil_r; cbn [app].

Lemma init_ui16 (bus : nat) (w : World) :
  __init__ bus "UI16" w = (Ret (session_ui16 bus), w).
Proof. reflexivity. Qed.

Lemma init_fp32 (bus : nat) (w : World) :
  __init__ bus "FP32" w = (Ret (session_fp32 bus), w).
Proof. reflexivity. Qed.

(** ** [wakeup] *)

(** C3, as the code has it.  Both sends sit in one [try]: when the first
    write is acknowledged, [wakeup] issues exactly two write calls carrying
    0x11 0x03 (whatever the second one answers); when the first write
    raises, the second is never issued and exactly one write call was
    made.  [wakeup] returns None either way. *)
Theorem wakeup_writes (self : SPS30_I2C) (w : World) :
  writes (trace (exec (wakeup self) w))
  = writes (trace w) ++
    match nth_outcome (script w) 0 with
    | Ok _ => [(i2c self, 0x69, [x11; x03]); (i2c self, 0x69, [x11; x03])]
    | BusError => [(i2c self, 0x69, [x11; x03])]
    end
  /\ result (wakeup self) w = Ret PyNone.
Proof.
  destruct w as [cmd dv dr df sc tr].
  destruct sc as [|[buf|] [|[buf'|] sc']]; unfold wakeup; mrun.
  all: change (bytes_of_ints CMD_WAKEUP) with (Some [x11; x03]); mrun.
  all: norm_trace.
  all: split; reflexivity.
Qed.

(** C3 as stated fails: on a bus whose first write raises, [wakeup] makes
    one write call, not two. *)
Lemma wakeup_first_write_fails :
  writes (trace (exec (wakeup (session_ui16 0)) (class_world [BusError])))
  = [(0%nat, 0x69, [x11; x03])]
  /\ length (writes (trace (exec (wakeup (session_ui16 0))
                             (class_world [BusError])))) <> 2%nat.
Proof. split; [reflexivity | discriminate]. Qed.

(** ** Computations that issue no write call *)

Lemma quiet_ret {A} (a : A) : quiet (ret a).
Proof. intros w. reflexivity. Qed.

Lemma quiet_raise {A} (e : exn) : quiet (@raise A e).
Proof. intros w. reflexivity. Qed.

Lemma quiet_bind {A B} (m : M A) (k : A -> M B) :
  quiet m -> (forall a, quiet (k a)) -> quiet (m ≫= k).
Proof.
  intros Hm Hk w. unfold exec. rewrite run_bind.
  specialize (Hm w). unfold exec in Hm.
  destruct (m w) as [[a|e] w']; cbn [snd] in Hm.
  - rewrite <- Hm. apply Hk.
  - exact Hm.
Qed.

Lemma quiet_try {A} (m : M A) (h : exn -> M A) :
  quiet m -> (forall e, quiet (h e)) -> quiet (try_except m h).
Proof.
  intros Hm Hh w. unfold exec, try_except.
  specialize (Hm w). unfold exec in Hm.
  destruct (m w) as [[a|e] w']; cbn [snd] in Hm.
  - exact Hm.
  - rewrite <- Hm. apply Hh.
Qed.

Lemma quiet_if {A} (b : bool) (m1 m2 : M A) :
  quiet m1 -> quiet m2 -> quiet (if b then m1 else m2).
Proof. destruct b; auto. Qed.

Lemma quiet_print (m : message) : quiet (print m).
Proof. intros w. mrun. norm_trace. reflexivity. Qed.

Lemma quiet_time_sleep (ms : nat) : quiet (time_sleep ms).
Proof. intros w. mrun. norm_trace. reflexivity. Qed.

Lemma quiet_readfrom (bus : nat) (addr : Z) (n : nat) :
  quiet (readfrom bus addr n).
Proof.
  intros [cmd dv dr df sc tr]. destruct sc as [|[buf|] sc'];
    mrun; norm_trace; reflexivity.
Qed.

Lemma quiet_set_item (d : dict_name) (key : string) (val : value) :
  quiet (set_item d key val).
Proof. intros w. reflexivity. Qed.

Lemma quiet_index {A} (l : list A) (i : nat) : quiet (index l i).
Proof. unfold index. destruct (l !! i); [apply quiet_ret | apply quiet_raise]. Qed.

Lemma quiet_unpack_H (b : list byte) : quiet (unpack_H b).
Proof.
  destruct b as [|? [|? [|? ?]]]; first [apply quiet_ret | apply quiet_raise].
Qed.

Lemma quiet_unpack_f (b : list byte) : quiet (unpack_f b).
Proof.
  destruct b as [|? [|? [|? [|? [|? ?]]]]];
    first [apply quiet_ret | apply quiet_raise].
Qed.

Ltac quiet_step :=
  first
    [ apply quiet_ret | apply quiet_raise | apply quiet_print
    | apply quiet_time_sleep | apply quiet_readfrom | apply quiet_set_item
    | apply quiet_index | apply quiet_unpack_H | apply quiet_unpack_f
    | apply quiet_if
    | apply quiet_bind; [|intros ?]
    | apply quiet_try; [|intros ?] ].

Lemma quiet_verify_crc_loop (data : list byte) (idxs : list nat) :
  quiet (_verify_crc_loop data idxs).
Proof.
  induction idxs as [|i rest IH]; cbn [_verify_crc_loop].
  - apply quiet_ret.
  - repeat quiet_step. exact IH.
Qed.

Lemma quiet_verify_crc (data : list byte) : quiet (_verify_crc data).
Proof.
  unfold _verify_crc. repeat quiet_step. apply quiet_verify_crc_loop.
Qed.

Lemma quiet_parse_uint_data_loop (raw_data : list byte) (idxs : list nat) :
  forall data_values, quiet (_parse_uint_data_loop raw_data idxs data_values).
Proof.
  induction idxs as [|i rest IH]; intros data_values;
    cbn [_parse_uint_data_loop].
  - apply quiet_ret.
  - repeat quiet_step; apply IH.
Qed.

Lemma quiet_parse_fp32_data_loop (raw_data : list byte) (idxs : list nat) :
  forall data_values, quiet (_parse_fp32_data_loop raw_data idxs data_values).
Proof.
  induction idxs as [|i rest IH]; intros data_values;
    cbn [_parse_fp32_data_loop].
  - apply quiet_ret.
  - repeat quiet_step; apply IH.
Qed.

Lemma quiet_store_values (kvs : list (string * value)) :
  quiet (store_values kvs).
Proof.
  induction kvs as [|[key val] kvs IH]; cbn [store_values].
  - apply quiet_ret.
  - repeat quiet_step. exact IH.
Qed.

Lemma quiet_parse_uint_data (raw_data : list byte) :
  quiet (_parse_uint_data raw_data).
Proof. apply quiet_parse_uint_data_loop. Qed.

Lemma quiet_parse_fp32_data (raw_data : list byte) :
  quiet (_parse_fp32_data raw_data).
Proof.
  unfold _parse_fp32_data. apply quiet_bind; [apply quiet_verify_crc|].
  intros _. apply quiet_parse_fp32_data_loop.
Qed.

Ltac quiet_all :=
  repeat first
    [ apply quiet_verify_crc | apply quiet_parse_uint_data
    | apply quiet_parse_fp32_data | apply quiet_store_values | quiet_step ].

(** One write call, then only quiet code, inside a [try]. *)
Lemma writes_try_writeto {A} (bus : nat) (addr : Z) (buf : list byte)
    (k : unit -> M A) (h : exn -> M A) (w : World) :
  quiet (k tt) -> (forall e, quiet (h e)) ->
  writes (trace (exec (try_except (writeto bus addr buf ≫= k) h) w))
  = writes (trace w) ++ [(bus, addr, buf)].
Proof.
  intros Hk Hh. destruct w as [cmd dv dr df sc tr].
  unfold quiet, exec in *. unfold try_except. rewrite run_bind.
  destruct sc as [|[ack|] sc'].
  - mrun. rewrite (Hh OSError). mrun. norm_trace. reflexivity.
  - mrun.
    match goal with |- context [k tt ?W] =>
      specialize (Hk W); destruct (k tt W) as [[a|e] w']
    end; cbn [snd] in *.
    + rewrite Hk. mrun. norm_trace. reflexivity.
    + rewrite (Hh e w'), Hk. mrun. norm_trace. reflexivity.
  - mrun. rewrite (Hh OSError). mrun. norm_trace. reflexivity.
Qed.

(** ** [read_data]: the command frame *)

(** C2, as the code has it.  Every call to [read_data] makes exactly one
    write call, and its buffer is the three bytes 0x03 0x00 0x34 of the
    table entry CMD_READ_MEASURED_VALUES: the opcode 0x03 0x00 followed by
    one more byte. *)
Theorem read_data_command_frame (self : SPS30_I2C) (w : World) :
  writes (trace (exec (read_data self) w))
  = writes (trace w) ++ [(i2c self, 0x69, [x03; x00; x34])].
Proof.
  unfold read_data.
  change (py_bytes CMD_READ_MEASURED_VALUES) with (ret [x03; x00; x34]).
  match goal with
  | |- context [try_except (ret ?b ≫= ?f) ?h] =>
      change (try_except (ret b ≫= f) h) with (try_except (f b) h)
  end.
  cbv beta.
  apply writes_try_writeto.
  - quiet_all.
  - intros e. quiet_all.
Qed.

(** C2 as stated fails: the buffer written is not the two-byte opcode. *)
Lemma read_data_writes_three_bytes :
  writes (trace (exec (read_data (session_ui16 0)) (class_world [])))
  = [(0%nat, 0x69, [x03; x00; x34])]
  /\ writes (trace (exec (read_data (session_ui16 0)) (class_world [])))
     <> [(0%nat, 0x69, [x03; x00])].
Proof. split; [reflexivity | discriminate]. Qed.

(** ** [start_measurement] *)

(** On the command table as the class body leaves it, the frame written
    is the five bytes the protocol asks for. *)
Lemma start_measurement_first_call (sc : list outcome) :
  writes (trace (exec (start_measurement (session_ui16 0)) (class_world sc)))
  = [(0%nat, 0x69, [x00; x10; x05; x00; xf6])]
  /\ writes (trace (exec (start_measurement (session_fp32 0)) (class_world sc)))
     = [(0%nat, 0x69, [x00; x10; x03; x00; xac])]
  /\ _crc8 [0x05; 0x00] = 0xf6 /\ _crc8 [0x03; 0x00] = 0xac.
Proof. destruct sc as [|[buf|] sc']; repeat split; reflexivity. Qed.

(** C1, the code at the failing input.  [start_measurement] extends the
    list bound to the class attribute CMD_START_MEASUREMENT in place, so
    the table keeps growing: the second call on a session writes eight
    bytes, and a call on another session starts from the bytes the first
    session left (here the integer session sends the float format byte
    0x03 at offset 2). *)
Theorem start_measurement_second_call :
  writes (trace (exec (start_measurement (session_ui16 0) ;;
                       start_measurement (session_ui16 0))
                      (class_world [Ok []; Ok []])))
  = [(0%nat, 0x69, [x00; x10; x05; x00; xf6]);
     (0%nat, 0x69, [x00; x10; x05; x00; xf6; x05; x00; xf6])]
  /\ writes (trace (exec (start_measurement (session_fp32 1) ;;
                          start_measurement (session_ui16 0))
                         (class_world [Ok []; Ok []])))
     = [(1%nat, 0x69, [x00; x10; x03; x00; xac]);
        (0%nat, 0x69, [x00; x10; x03; x00; xac; x05; x00; xac])]
  /\ CMD_START_MEASUREMENT
       (exec (start_measurement (session_ui16 0)) (class_world [Ok []]))
     = [0x00; 0x10; 0x05; 0x00; 0xf6].
Proof. repeat split; reflexivity. Qed.

(** ** [read_data] on a transport error *)

(** C7.  When the write or the read of [read_data] raises, the method
    returns the empty list -- not the dictionary it returns on success --
    leaves the three dictionaries as they were, and prints the data-read
    error line only: no checksum line is printed and the result is not the
    None that other methods return on a checksum failure. *)
Theorem read_data_transport_error (self : SPS30_I2C) (w : World) :
  nth_outcome (script w) 0 = BusError \/ nth_outcome (script w) 1 = BusError ->
  result (read_data self) w = Ret (PyList [])
  /\ (forall d, deref (exec (read_data self) w) d = deref w d)
  /\ printed (trace (exec (read_data self) w))
     = printed (trace w) ++ [MsgDataReadError OSError]
  /\ PyList [] <> PyRef DictValues
  /\ PyList [] <> PyNone.
Proof.
  intros Hfail. destruct w as [cmd dv dr df sc tr].
  cbn [script] in Hfail.
  assert (Hsc : sc = [] \/ (exists sc', sc = BusError :: sc')
                \/ (exists ack, sc = [Ok ack])
                \/ (exists ack sc', sc = Ok ack :: BusError :: sc')).
  { destruct sc as [|[ack|] [|[buf|] sc']]; eauto 6.
    destruct Hfail as [H|H]; discriminate H. }
  unfold read_data.
  change (py_bytes CMD_READ_MEASURED_VALUES) with (ret [x03; x00; x34]).
  destruct Hsc as [->|[(sc' & ->)|[(ack & ->)|(ack & sc' & ->)]]].
  all: mrun; norm_trace.
  all: repeat split; try discriminate; try reflexivity.
  all: intros []; reflexivity.
Qed.

Lemma read_data_transport_error_witness :
  (nth_outcome (script (class_world [Ok []; BusError])) 0 = BusError
   \/ nth_outcome (script (class_world [Ok []; BusError])) 1 = BusError)
  /\ result (read_data (session_ui16 0)) (class_world [Ok []; BusError])
     = Ret (PyList []).
Proof.
  split; [right; reflexivity|].
  apply (read_data_transport_error (session_ui16 0)
           (class_world [Ok []; BusError])).
  right; reflexivity.
Defined.

(** ** The status register *)

Lemma bit_extract (z i : Z) :
  0 <= i -> (Z.land (Z.shiftr z i) 1 =? 1) = Z.testbit z i.
Proof.
  intros Hi. change 1 with (Z.ones 1) at 1.
  rewrite Z.land_ones by lia. rewrite Z.shiftr_div_pow2 by lia.
  rewrite Z.testbit_eqb by lia. reflexivity.
Qed.

Lemma byte_high_bits (b : byte) (n : Z) :
  8 <= n -> Z.testbit (Z_of_byte b) n = false.
Proof.
  intros Hn. pose proof (Z_of_byte_range b) as Hr.
  rewrite <- (Z.mod_small (Z_of_byte b) (2 ^ 8)) by (change (2 ^ 8) with 256; lia).
  apply Z.mod_pow2_bits_high. lia.
Qed.

(** A bit of the 32-bit word is a bit of one of its four bytes. *)
Lemma status_field_bit (d0 d1 c0 d2 d3 c1 : byte) (rest : list byte) (n : Z) :
  0 <= n < 8 ->
  Z.testbit (status_field (d0 :: d1 :: c0 :: d2 :: d3 :: c1 :: rest)) n
    = Z.testbit (Z_of_byte d3) n
  /\ Z.testbit (status_field (d0 :: d1 :: c0 :: d2 :: d3 :: c1 :: rest)) (n + 8)
    = Z.testbit (Z_of_byte d2) n
  /\ Z.testbit (status_field (d0 :: d1 :: c0 :: d2 :: d3 :: c1 :: rest)) (n + 16)
    = Z.testbit (Z_of_byte d1) n
  /\ Z.testbit (status_field (d0 :: d1 :: c0 :: d2 :: d3 :: c1 :: rest)) (n + 24)
    = Z.testbit (Z_of_byte d0) n.
Proof.
  intros Hn. unfold status_field.
  repeat split; rewrite !Z.lor_spec, !Z.shiftl_spec by lia.
  - rewrite !(Z.testbit_neg_r _ (n - _)) by lia. reflexivity.
  - rewrite !(Z.testbit_neg_r _ (n + 8 - 24)), !(Z.testbit_neg_r _ (n + 8 - 16)) by lia.
    rewrite (byte_high_bits d3) by lia.
    replace (n + 8 - 8) with n by lia. rewrite orb_false_r. reflexivity.
  - rewrite !(Z.testbit_neg_r _ (n + 16 - 24)) by lia.
    rewrite (byte_high_bits d3), (byte_high_bits d2) by lia.
    replace (n + 16 - 16) with n by lia. rewrite !orb_false_r. reflexivity.
  - rewrite (byte_high_bits d3), (byte_high_bits d2), (byte_high_bits d1) by lia.
    replace (n + 24 - 24) with n by lia. rewrite !orb_false_r. reflexivity.
Qed.

(** The three list positions the method reads, as bits of the word. *)
Lemma register_bits_lookup (d0 d1 c0 d2 d3 c1 : byte) :
  let raw := [d0; d1; c0; d2; d3; c1] in
  register_bits (slice 0 2 raw ++ slice 3 5 raw) !! 21%nat
    = Some (status_bit raw 21)
  /\ register_bits (slice 0 2 raw ++ slice 3 5 raw) !! 5%nat
    = Some (status_bit raw 5)
  /\ register_bits (slice 0 2 raw ++ slice 3 5 raw) !! 4%nat
    = Some (status_bit raw 4).
Proof.
  intros raw. unfold status_bit, raw.
  destruct (status_field_bit d0 d1 c0 d2 d3 c1 [] 2) as (_ & H21 & _); [lia|].
  destruct (status_field_bit d0 d1 c0 d2 d3 c1 [] 2) as (_ & _ & _ & H5); [lia|].
  destruct (status_field_bit d0 d1 c0 d2 d3 c1 [] 3) as (_ & _ & _ & H4); [lia|].
  change (31 - 21) with (2 + 8). change (31 - 5) with (2 + 24).
  change (31 - 4) with (3 + 24).
  rewrite H21, H5, H4, <- !bit_extract by lia.
  repeat split; reflexivity.
Qed.

Lemma read_status_register_run (self : SPS30_I2C) (w : World)
    (ack raw : list byte) (rest : list outcome) :
  script w = Ok ack :: Ok raw :: rest ->
  length raw = 6%nat ->
  crc_valid raw = true ->
  read_status_register self w
  = (Ret (PyRef DictRegister),
     {| CMD_START_MEASUREMENT := CMD_START_MEASUREMENT w;
        dict_values := dict_values w;
        dict_register :=
          <["Fan error" := VBool (status_bit raw 4)]>
            (<["Laser error" := VBool (status_bit raw 5)]>
               (<["Fan speed error" := VBool (status_bit raw 21)]>
                  (dict_register w)));
        dict_firmware_version := dict_firmware_version w;
        script := rest;
        trace := trace w ++ [EvWrite (i2c self) 0x69 [xd2; x06]; EvSleep 100;
                             EvPrint MsgReadingRegister;
                             EvRead (i2c self) 0x69 6] |}).
Proof.
  intros Hsc Hlen Hvalid. destruct w as [cmd dv dr df sc tr].
  cbn [script] in Hsc. subst sc.
  destruct raw as [|d0 [|d1 [|c0 [|d2 [|d3 [|c1 [|? ?]]]]]]]; try discriminate.
  destruct (register_bits_lookup d0 d1 c0 d2 d3 c1) as (H21 & H5 & H4).
  cbv zeta in H21, H5, H4.
  unfold read_status_register.
  change (py_bytes CMD_READ_STATUS_REGISTER) with (ret [xd2; x06]).
  mrun. rewrite (verify_crc_valid _ _ Hvalid).
  mrun. rewrite H21. mrun. rewrite H5. mrun. rewrite H4. mrun.
  rewrite <- !app_assoc. reflexivity.
Qed.

(** C8.  On a 6-byte frame with valid checksums, [read_status_register]
    returns the register dictionary with fan-speed error set from bit
    index 21, laser error from bit index 5 and fan error from bit index 4
    of the 32-bit word made of the data bytes of groups 0 and 1 (bit 0 the
    most significant bit of the first byte).  In particular, bit 21 set
    and bits 4 and 5 clear give True, False, False. *)
Theorem read_status_register_decodes (self : SPS30_I2C) (w : World)
    (ack raw : list byte) (rest : list outcome) :
  script w = Ok ack :: Ok raw :: rest ->
  length raw = 6%nat ->
  crc_valid raw = true ->
  let w' := exec (read_status_register self) w in
  result (read_status_register self) w = Ret (PyRef DictRegister)
  /\ deref w' DictRegister !! "Fan speed error" = Some (VBool (status_bit raw 21))
  /\ deref w' DictRegister !! "Laser error" = Some (VBool (status_bit raw 5))
  /\ deref w' DictRegister !! "Fan error" = Some (VBool (status_bit raw 4))
  /\ (status_bit raw 21 = true -> status_bit raw 5 = false ->
      status_bit raw 4 = false ->
      deref w' DictRegister !! "Fan speed error" = Some (VBool true)
      /\ deref w' DictRegister !! "Laser error" = Some (VBool false)
      /\ deref w' DictRegister !! "Fan error" = Some (VBool false)).
Proof.
  intros Hsc Hlen Hvalid w'. subst w'. unfold exec, result.
  rewrite (read_status_register_run self w ack raw rest Hsc Hlen Hvalid).
  cbn [fst snd deref dict_register].
  assert (H21 : forall (m : gmap string value) v1 v2 v3,
             <["Fan error" := v1]> (<["Laser error" := v2]>
               (<["Fan speed error" := v3]> m)) !! "Fan speed error" = Some v3).
  { intros. rewrite !lookup_insert_ne by discriminate. apply lookup_insert_eq. }
  assert (H5 : forall (m : gmap string value) v1 v2 v3,
             <["Fan error" := v1]> (<["Laser error" := v2]>
               (<["Fan speed error" := v3]> m)) !! "Laser error" = Some v2).
  { intros. rewrite lookup_insert_ne by discriminate. apply lookup_insert_eq. }
  assert (H4 : forall (m : gmap string value) v1 v2 v3,
             <["Fan error" := v1]> (<["Laser error" := v2]>
               (<["Fan speed error" := v3]> m)) !! "Fan error" = Some v1).
  { intros. apply lookup_insert_eq. }
  rewrite H21, H5, H4. do 4 (split; [reflexivity|]).
  intros -> -> ->. repeat split; reflexivity.
Qed.

Lemma read_status_register_decodes_witness :
  status_bit status_frame_bit21 21 = true
  /\ status_bit status_frame_bit21 5 = false
  /\ status_bit status_frame_bit21 4 = false
  /\ deref (exec (read_status_register (session_ui16 0))
              (class_world [Ok []; Ok status_frame_bit21])) DictRegister
       !! "Fan speed error" = Some (VBool true).
Proof.
  assert (H21 : status_bit status_frame_bit21 21 = true) by reflexivity.
  assert (H5 : status_bit status_frame_bit21 5 = false) by reflexivity.
  assert (H4 : status_bit status_frame_bit21 4 = false) by reflexivity.
  split; [exact H21|]. split; [exact H5|]. split; [exact H4|].
  refine (proj1 (proj2 (proj2 (proj2 (proj2
            (read_status_register_decodes (session_ui16 0)
               (class_world [Ok []; Ok status_frame_bit21]) []
               status_frame_bit21 [] eq_refl eq_refl eq_refl)))) H21 H5 H4)).
Defined.

(** ** The serial number *)

Lemma decode_ascii_ok (bs : list byte) (w : World) :
  is_ascii bs = true ->
  decode_ascii bs w = (Ret (string_of_list_ascii (map ascii_of_byte bs)), w).
Proof. unfold decode_ascii, is_ascii. intros ->. reflexivity. Qed.

Lemma py_bytes_ints (bs : list byte) (w : World) :
  py_bytes (ints bs) w = (Ret bs, w).
Proof. unfold py_bytes. rewrite bytes_of_ints_ints. reflexivity. Qed.

Tactic Notation "destruct_frame" ident(raw) integer(n) :=
  do n (destruct raw as [|? raw]; [discriminate|]);
  destruct raw; [|discriminate].

Lemma data_chars_48 (raw : list byte) :
  length raw = 48%nat -> data_chars raw = ints (data_bytes raw).
Proof. intros Hlen. destruct_frame raw 48. reflexivity. Qed.

Lemma read_serial_number_run (self : SPS30_I2C) (w : World)
    (ack raw : list byte) (rest : list outcome) :
  script w = Ok ack :: Ok raw :: rest ->
  length raw = 48%nat ->
  crc_valid raw = true ->
  is_ascii (data_bytes raw) = true ->
  read_serial_number self w
  = (Ret (PyStr (str_rstrip_0 (str_strip (payload_string raw)))),
     {| CMD_START_MEASUREMENT := CMD_START_MEASUREMENT w;
        dict_values := dict_values w;
        dict_register := dict_register w;
        dict_firmware_version := dict_firmware_version w;
        script := rest;
        trace := trace w ++ [EvWrite (i2c self) 0x69 [xd0; x33];
                             EvPrint MsgReadingSerial;
                             EvRead (i2c self) 0x69 48;
                             EvPrint (MsgRawData raw);
                             EvPrint (MsgChars (ints (data_bytes raw)))] |}).
Proof.
  intros Hsc Hlen Hvalid Hascii. destruct w as [cmd dv dr df sc tr].
  cbn [script] in Hsc. subst sc.
  unfold read_serial_number.
  change (py_bytes CMD_SERIAL_NUMBER) with (ret [xd0; x33]).
  mrun. rewrite (verify_crc_valid _ _ Hvalid).
  mrun. rewrite (data_chars_48 raw Hlen), bytes_of_ints_ints.
  mrun. rewrite (decode_ascii_ok _ _ Hascii).
  unfold payload_string. rewrite <- !app_assoc. reflexivity.
Qed.

(** C6, as the code has it.  On a 48-byte frame with valid checksums and
    an ASCII payload, [read_serial_number] returns the payload with
    whitespace stripped at both ends and then the trailing digit '0'
    (0x30) stripped.  NUL is neither: "12345", three spaces and NUL
    padding comes back unchanged, whereas "12345" followed by digit
    zeros and spaces comes back as "12345". *)
Theorem read_serial_number_trim (self : SPS30_I2C) (w : World)
    (ack raw : list byte) (rest : list outcome) :
  script w = Ok ack :: Ok raw :: rest ->
  length raw = 48%nat ->
  crc_valid raw = true ->
  is_ascii (data_bytes raw) = true ->
  result (read_serial_number self) w
    = Ret (PyStr (str_rstrip_0 (str_strip (payload_string raw))))
  /\ str_rstrip_0 (str_strip (serial_12345_nul 3)) = serial_12345_nul 3
  /\ str_rstrip_0 (str_strip (serial_12345_nul 24)) = serial_12345_nul 24
  /\ str_rstrip_0 (str_strip serial_12345_zeros) = "12345"%string.
Proof.
  intros Hsc Hlen Hvalid Hascii. unfold result.
  rewrite (read_serial_number_run self w ack raw rest Hsc Hlen Hvalid Hascii).
  repeat split; reflexivity.
Qed.

Lemma read_serial_number_trim_witness :
  payload_string (text_frame serial_12345_zeros) = serial_12345_zeros
  /\ result (read_serial_number (session_ui16 0))
       (class_world [Ok []; Ok (text_frame serial_12345_zeros)])
     = Ret (PyStr "12345").
Proof.
  split; [reflexivity|].
  exact (proj1 (read_serial_number_trim (session_ui16 0)
                  (class_world [Ok []; Ok (text_frame serial_12345_zeros)])
                  [] (text_frame serial_12345_zeros) []
                  eq_refl eq_refl eq_refl eq_refl)).
Defined.

(** C6 as stated fails: the frame whose payload is "12345", three spaces
    and NUL padding has 48 bytes and valid checksums, and the method
    returns the whole payload, NULs included, not "12345"; the same holds
    for the trim applied to the 11-character text of the scenario. *)
Lemma read_serial_number_keeps_nul :
  length (text_frame (serial_12345_nul 24)) = 48%nat
  /\ crc_valid (text_frame (serial_12345_nul 24)) = true
  /\ payload_string (text_frame (serial_12345_nul 24)) = serial_12345_nul 24
  /\ result (read_serial_number (session_ui16 0))
       (class_world [Ok []; Ok (text_frame (serial_12345_nul 24))])
     = Ret (PyStr (serial_12345_nul 24))
  /\ serial_12345_nul 24 <> "12345"%string
  /\ str_rstrip_0 (str_strip (serial_12345_nul 3)) <> "12345"%string.
Proof.
  repeat split; try (vm_compute; reflexivity); vm_compute; discriminate.
Qed.

(** ** Integer measurements: [_parse_uint_data] *)

Lemma parse_uint_loop_step (data : list byte) (i : nat) (rest : list nat)
    (p : list byte) (c : byte) (acc : list value) (w : World) :
  slice i (i + 2) data = p ->
  data !! (i + 2)%nat = Some c ->
  _parse_uint_data_loop data (i :: rest) acc w =
    if _crc8 (ints p) =? Z_of_byte c
    then (unpack_H p ≫=
            fun value => _parse_uint_data_loop data rest (acc ++ [VInt value])) w
    else _parse_uint_data_loop data rest acc
           (add_events
              [EvPrint (MsgUintCrcError i (Z_of_byte c) (_crc8 (ints p)))] w).
Proof.
  intros Hp Hc. cbn [_parse_uint_data_loop]. rewrite Hp.
  unfold index. rewrite run_bind, Hc. unfold ret at 1.
  destruct (_crc8 (ints p) =? Z_of_byte c); reflexivity.
Qed.

Lemma parse_uint_loop_spec (gs : list (byte * byte * byte)) :
  forall (pre : list byte) (k : nat) (acc : list value) (w : World),
    length pre = (k * 3)%nat ->
    _parse_uint_data_loop (pre ++ unchunks3 gs)
      (map (fun k => (k * 3)%nat) (seq k (length gs))) acc w
    = (Ret (acc ++ map (fun g => VInt (be16 g)) (List.filter group_ok gs)),
       add_events (uint_crc_events k gs) w).
Proof.
  induction gs as [|[[a b] c] gs IH]; intros pre k acc w Hk.
  - cbn [length seq map _parse_uint_data_loop List.filter uint_crc_events].
    rewrite app_nil_r, add_events_nil. reflexivity.
  - cbn [length seq map unchunks3].
    destruct (group_at pre (unchunks3 gs) a b c k Hk) as [Hs Hi].
    rewrite (parse_uint_loop_step _ _ _ _ _ acc w Hs Hi).
    assert (Hpre : length (pre ++ [a; b; c]) = (S k * 3)%nat).
    { rewrite length_app, Hk. cbn [length]. lia. }
    cbn [List.filter uint_crc_events]. rewrite <- group_ok_eq.
    destruct (group_ok (a, b, c)).
    + rewrite run_bind. cbn [unpack_H ret].
      specialize (IH (pre ++ [a; b; c]) (S k)
                     (acc ++ [VInt (Z_of_byte a * 256 + Z_of_byte b)]) w Hpre).
      rewrite <- app_assoc in IH. cbn [app] in IH. rewrite IH.
      cbn [map]. rewrite <- app_assoc. reflexivity.
    + specialize (IH (pre ++ [a; b; c]) (S k) acc
                     (add_events
                        [EvPrint (MsgUintCrcError (k * 3) (Z_of_byte c)
                                    (_crc8 (ints [a; b])))] w) Hpre).
      rewrite <- app_assoc in IH. cbn [app] in IH. rewrite IH.
      rewrite add_events_app. reflexivity.
Qed.

Lemma parse_uint_data_spec (raw : list byte) (w : World) :
  (length raw mod 3 = 0)%nat ->
  _parse_uint_data raw w
  = (Ret (passing_values raw), add_events (uint_crc_events 0 (chunks3 raw)) w).
Proof.
  intros Hmod. destruct (mod3_length raw Hmod) as [n Hn].
  destruct (unchunks3_chunks3 n raw Hn) as [Hu Hc].
  unfold _parse_uint_data, passing_values. rewrite Hn, range_step_3.
  pose proof (parse_uint_loop_spec (chunks3 raw) [] 0%nat [] w eq_refl) as Hrun.
  rewrite !app_nil_l, Hu, Hc in Hrun. exact Hrun.
Qed.

(** ** Storing the values *)

Lemma store_values_run (kvs : list (string * value)) (w : World) :
  store_values kvs w = (Ret tt, with_dict_values (assign kvs (dict_values w)) w).
Proof.
  revert w. induction kvs as [|[key val] kvs IH]; intros w.
  - destruct w. reflexivity.
  - cbn [store_values]. rewrite run_bind. cbn [set_item]. rewrite IH.
    reflexivity.
Qed.

Lemma assign_other (keys : list string) :
  forall (vals : list value) (d : gmap string value) (key : string),
    key ∉ keys -> assign (zip keys vals) d !! key = d !! key.
Proof.
  induction keys as [|k0 keys IH]; intros vals d key Hnotin; [reflexivity|].
  destruct vals as [|v0 vals]; [reflexivity|].
  apply not_elem_of_cons in Hnotin as [Hne Hnotin].
  cbn [zip_with]. unfold assign in *. cbn [fold_left fst snd].
  rewrite IH by exact Hnotin. apply lookup_insert_ne. congruence.
Qed.

(** The first names receive the values in order; the others keep what
    they had. *)
Lemma assign_zip_lookup (keys : list string) :
  NoDup keys ->
  forall (vals : list value) (d : gmap string value) (j : nat) (key : string),
    keys !! j = Some key ->
    assign (zip keys vals) d !! key
    = match vals !! j with Some v => Some v | None => d !! key end.
Proof.
  induction 1 as [|k0 keys Hnotin Hnodup IH]; intros vals d j key Hj;
    [discriminate|].
  destruct vals as [|v0 vals].
  - rewrite lookup_nil. reflexivity.
  - cbn [zip_with]. unfold assign in *. cbn [fold_left fst snd].
    destruct j as [|j]; cbn in Hj.
    + injection Hj as ->. cbn [lookup list_lookup].
      fold (assign (zip keys vals) (<[key:=v0]> d)).
      rewrite assign_other by exact Hnotin. apply lookup_insert_eq.
    + cbn [lookup list_lookup]. rewrite (IH vals _ j key Hj).
      change (list_lookup j vals) with (vals !! j).
      destruct (vals !! j); [reflexivity|].
      apply lookup_insert_ne. intros ->.
      apply Hnotin. eapply list_elem_of_lookup_2. exact Hj.
Qed.

Lemma values_keys_NoDup : NoDup _values_keys.
Proof.
  unfold _values_keys.
  repeat (apply NoDup_cons_2;
          [rewrite ?not_elem_of_cons; repeat split;
           try discriminate; apply not_elem_of_nil|]).
  apply NoDup_nil_2.
Qed.

(** ** Positions after skipped groups *)

Lemma filter_position {A} (f : A -> bool) (l : list A) :
  forall (i : nat) (g : A),
    l !! i = Some g -> f g = true ->
    List.filter f l !! length (List.filter f (take i l)) = Some g.
Proof.
  induction l as [|x l IH]; intros i g Hi Hg; [discriminate|].
  destruct i as [|i]; cbn in Hi.
  - injection Hi as ->. cbn [take firstn List.filter length]. rewrite Hg.
    reflexivity.
  - cbn [take firstn List.filter]. destruct (f x); cbn [length].
    + apply (IH i g Hi Hg).
    + apply (IH i g Hi Hg).
Qed.

Lemma filter_length_le {A} (f : A -> bool) (l : list A) :
  (length (List.filter f l) <= length l)%nat
  /\ (forallb f l = false -> (length (List.filter f l) < length l)%nat).
Proof.
  induction l as [|x l [IHle IHlt]]; [split; [reflexivity | discriminate]|].
  rewrite forallb_cons. cbn [List.filter].
  destruct (f x); cbn [length andb]; split; try lia.
  intros H. specialize (IHlt H). lia.
Qed.

(** ** [read_data] in integer mode *)

Lemma read_data_ui16_run (self : SPS30_I2C) (w : World)
    (ack raw : list byte) (rest : list outcome) :
  datatype_init self = "UI16"%string ->
  script w = Ok ack :: Ok raw :: rest ->
  (length raw mod 3 = 0)%nat ->
  read_data self w
  = (Ret (PyRef DictValues),
     {| CMD_START_MEASUREMENT := CMD_START_MEASUREMENT w;
        dict_values :=
          assign (zip _values_keys (passing_values raw)) (dict_values w);
        dict_register := dict_register w;
        dict_firmware_version := dict_firmware_version w;
        script := rest;
        trace := trace w ++
                 [EvWrite (i2c self) 0x69 [x03; x00; x34]; EvSleep 100;
                  EvRead (i2c self) 0x69 (nbytes_measured_values self)] ++
                 uint_crc_events 0 (chunks3 raw) |}).
Proof.
  intros Hdt Hsc Hmod. destruct w as [cmd dv dr df sc tr].
  destruct self as [bus dti dt nb]. cbn [datatype_init script] in Hdt, Hsc.
  subst dti sc. unfold read_data.
  change (py_bytes CMD_READ_MEASURED_VALUES) with (ret [x03; x00; x34]).
  mrun. change (String.eqb "UI16" "UI16") with true. cbv iota.
  rewrite (parse_uint_data_spec raw _ Hmod). mrun.
  rewrite store_values_run. unfold with_dict_values. mrun.
  rewrite <- !app_assoc. reflexivity.
Qed.

(** C10.  In integer mode, on a 30-byte response, [read_data] returns the
    measurement dictionary after assigning the values of the groups whose
    checksum matches, in frame order, to the first channel names: name j
    holds passing value j when there is one and keeps its previous value
    otherwise.  So the value of a passing group i sits under the name at
    position p, the number of passing groups before it, and p is smaller
    than i as soon as a preceding group was skipped. *)
Theorem read_data_ui16_partial (self : SPS30_I2C) (w : World)
    (ack raw : list byte) (rest : list outcome) :
  datatype_init self = "UI16"%string ->
  script w = Ok ack :: Ok raw :: rest ->
  length raw = 30%nat ->
  let w' := exec (read_data self) w in
  result (read_data self) w = Ret (PyRef DictValues)
  /\ (forall (j : nat) (key : string),
        _values_keys !! j = Some key ->
        deref w' DictValues !! key
        = match passing_values raw !! j with
          | Some v => Some v
          | None => deref w DictValues !! key
          end)
  /\ (forall (i : nat) (g : byte * byte * byte),
        chunks3 raw !! i = Some g -> group_ok g = true ->
        let p := length (List.filter group_ok (take i (chunks3 raw))) in
        (p <= i)%nat
        /\ (forallb group_ok (take i (chunks3 raw)) = false -> (p < i)%nat)
        /\ exists key, _values_keys !! p = Some key
                       /\ deref w' DictValues !! key = Some (VInt (be16 g))).
Proof.
  intros Hdt Hsc Hlen w'. subst w'. unfold exec, result.
  assert (Hmod : (length raw mod 3 = 0)%nat) by (rewrite Hlen; reflexivity).
  rewrite (read_data_ui16_run self w ack raw rest Hdt Hsc Hmod).
  cbn [fst snd deref dict_values].
  assert (Hkeys : forall (j : nat) (key : string),
             _values_keys !! j = Some key ->
             assign (zip _values_keys (passing_values raw)) (dict_values w) !! key
             = match passing_values raw !! j with
               | Some v => Some v
               | None => dict_values w !! key
               end).
  { intros j key Hj. apply assign_zip_lookup; [apply values_keys_NoDup | exact Hj]. }
  split; [reflexivity|]. split; [exact Hkeys|].
  intros i g Hi Hg.
  set (p := length (List.filter group_ok (take i (chunks3 raw)))).
  destruct (unchunks3_chunks3 10 raw Hlen) as [_ Hn].
  assert (Hi10 : (i < 10)%nat).
  { rewrite <- Hn. eapply lookup_lt_Some. exact Hi. }
  destruct (filter_length_le group_ok (take i (chunks3 raw))) as [Hle Hlt].
  rewrite length_take in Hle, Hlt.
  assert (Hp : (p <= i)%nat) by (subst p; lia).
  split; [exact Hp|]. split; [intros Hbad; specialize (Hlt Hbad); subst p; lia|].
  destruct (lookup_lt_is_Some_2 _values_keys p) as [key Hkey].
  { change (length _values_keys) with 10%nat. lia. }
  exists key. split; [exact Hkey|].
  rewrite (Hkeys p key Hkey). unfold passing_values.
  rewrite list_lookup_fmap.
  change (@lookup nat _ (list (byte * byte * byte)) _ p
            (List.filter group_ok (chunks3 raw)))
    with (List.filter group_ok (chunks3 raw) !! p).
  subst p. rewrite (filter_position group_ok (chunks3 raw) i g Hi Hg).
  reflexivity.
Qed.

Lemma read_data_ui16_partial_witness :
  group_ok (x00, x01, x00) = false
  /\ deref (exec (read_data (session_ui16 0))
              (class_world [Ok []; Ok uint_frame_bad_group0])) DictValues
       !! "mc_pm1.0" = Some (VInt 2)
  /\ deref (exec (read_data (session_ui16 0))
              (class_world [Ok []; Ok uint_frame_bad_group0])) DictValues
       !! "typical_size" = Some VNone.
Proof.
  pose proof (read_data_ui16_partial (session_ui16 0)
                (class_world [Ok []; Ok uint_frame_bad_group0])
                [] uint_frame_bad_group0 [] eq_refl eq_refl eq_refl)
    as (_ & Hkeys & _).
  split; [vm_compute; reflexivity|]. split.
  - exact (Hkeys 0%nat "mc_pm1.0"%string eq_refl).
  - exact (Hkeys 9%nat "typical_size"%string eq_refl).
Defined.

(** ** Float measurements: [_parse_fp32_data] *)

(** Whatever [_verify_crc] answers, a 60-byte frame decodes to ten
    values. *)
Lemma parse_fp32_data_total (raw : list byte) (w : World) :
  length raw = 60%nat ->
  exists vals w',
    _parse_fp32_data raw w = (Ret vals, w') /\ length vals = 10%nat.
Proof.
  intros Hlen. unfold _parse_fp32_data. rewrite run_bind.
  destruct (crc_valid raw) eqn:Hvalid.
  - rewrite (verify_crc_valid raw w Hvalid).
    destruct_frame raw 60. eexists _, _. split; reflexivity.
  - destruct (verify_crc_invalid raw w Hvalid) as [m ->].
    destruct_frame raw 60. eexists _, _. split; reflexivity.
Qed.

(** C4, the code at the failing input.  The frame fails verification
    ([_verify_crc] returns False and prints the mismatch of group 0), yet
    [_parse_fp32_data] drops that answer and returns ten decoded values,
    the first one taken from the corrupted bytes, and [read_data] stores
    them and returns the dictionary. *)
Theorem parse_fp32_data_ignores_crc :
  length fp32_frame_corrupt = 60%nat
  /\ crc_valid fp32_frame_corrupt = false
  /\ result (_verify_crc fp32_frame_corrupt) (class_world []) = Ret false
  /\ result (_parse_fp32_data fp32_frame_corrupt) (class_world [])
     = Ret (VFloat 0x40800000 :: repeat (VFloat 0x3F800000) 9)
  /\ printed (trace (exec (_parse_fp32_data fp32_frame_corrupt) (class_world [])))
     = [MsgCrcMismatch 0 0xd0 0x72]
  /\ result (read_data (session_fp32 0))
       (class_world [Ok []; Ok fp32_frame_corrupt]) = Ret (PyRef DictValues)
  /\ map (fun key =>
            deref (exec (read_data (session_fp32 0))
                     (class_world [Ok []; Ok fp32_frame_corrupt])) DictValues
              !! key) _values_keys
     = Some (VFloat 0x40800000) :: repeat (Some (VFloat 0x3F800000)) 9.
Proof. repeat split; vm_compute; reflexivity. Qed.

(** ** The firmware version *)

Lemma read_firmware_version_run (self : SPS30_I2C) (w : World)
    (ack raw : list byte) (rest : list outcome) :
  script w = Ok ack :: Ok raw :: rest ->
  length raw = 3%nat ->
  crc_valid raw = true ->
  read_firmware_version self w
  = (Ret (PyRef DictFirmwareVersion),
     {| CMD_START_MEASUREMENT := CMD_START_MEASUREMENT w;
        dict_values := dict_values w;
        dict_register := dict_register w;
        dict_firmware_version := firmware_update raw (dict_firmware_version w);
        script := rest;
        trace := trace w ++ [EvWrite (i2c self) 0x69 [xd1; x00];
                             EvPrint MsgReadingFirmware;
                             EvRead (i2c self) 0x69 3] |}).
Proof.
  intros Hsc Hlen Hvalid. destruct w as [cmd dv dr df sc tr].
  cbn [script] in Hsc. subst sc.
  destruct raw as [|major [|minor [|c [|? ?]]]]; try discriminate.
  unfold read_firmware_version.
  change (py_bytes CMD_FIRMWARE_VERSION) with (ret [xd1; x00]).
  mrun. rewrite (verify_crc_valid _ _ Hvalid).
  mrun. cbn [lookup list_lookup]. cbv iota beta.
  unfold firmware_update. rewrite <- !app_assoc. reflexivity.
Qed.

(** ** The dictionaries belong to the class *)

(** C5, as the code has it.  [__init__] assigns no dictionary, so every
    instance resolves dict_values, dict_register and dict_firmware_version
    to the one object held by the class.  After a successful [read_data]
    (integer mode), [read_status_register] or [read_firmware_version] on
    instance [a], any other instance [b] sees the updated dictionary, the
    very one [a] sees. *)
Theorem dictionaries_are_shared (a b : SPS30_I2C) (w : World)
    (ack raw : list byte) (rest : list outcome) :
  script w = Ok ack :: Ok raw :: rest ->
  crc_valid raw = true ->
  (forall (w0 : World) (d : dict_name), self_dict w0 b d = self_dict w0 a d)
  /\ (datatype_init a = "UI16"%string -> length raw = 30%nat ->
      result (read_data a) w = Ret (PyRef DictValues)
      /\ self_dict (exec (read_data a) w) b DictValues
         = assign (zip _values_keys (passing_values raw))
             (self_dict w b DictValues))
  /\ (length raw = 6%nat ->
      result (read_status_register a) w = Ret (PyRef DictRegister)
      /\ self_dict (exec (read_status_register a) w) b DictRegister
         = register_update raw (self_dict w b DictRegister))
  /\ (length raw = 3%nat ->
      result (read_firmware_version a) w = Ret (PyRef DictFirmwareVersion)
      /\ self_dict (exec (read_firmware_version a) w) b DictFirmwareVersion
         = firmware_update raw (self_dict w b DictFirmwareVersion)).
Proof.
  intros Hsc Hvalid. split; [reflexivity|]. split; [|split].
  - intros Hdt Hlen. unfold exec, result.
    assert (Hmod : (length raw mod 3 = 0)%nat) by (rewrite Hlen; reflexivity).
    rewrite (read_data_ui16_run a w ack raw rest Hdt Hsc Hmod).
    split; reflexivity.
  - intros Hlen. unfold exec, result.
    rewrite (read_status_register_run a w ack raw rest Hsc Hlen Hvalid).
    split; reflexivity.
  - intros Hlen. unfold exec, result.
    rewrite (read_firmware_version_run a w ack raw rest Hsc Hlen Hvalid).
    split; reflexivity.
Qed.

Lemma dictionaries_are_shared_witness :
  script (class_world [Ok []; Ok firmware_frame_2_3])
    = [Ok []; Ok firmware_frame_2_3]
  /\ crc_valid firmware_frame_2_3 = true
  /\ self_dict (exec (read_firmware_version (session_ui16 0))
                  (class_world [Ok []; Ok firmware_frame_2_3]))
       (session_fp32 1) DictFirmwareVersion
     = firmware_update firmware_frame_2_3
         (self_dict (class_world [Ok []; Ok firmware_frame_2_3])
            (session_fp32 1) DictFirmwareVersion).
Proof.
  split; [reflexivity|]. split; [reflexivity|].
  exact (proj2 (proj2 (proj2 (proj2
           (dictionaries_are_shared (session_ui16 0) (session_fp32 1)
              (class_world [Ok []; Ok firmware_frame_2_3])
              [] firmware_frame_2_3 [] eq_refl eq_refl))) eq_refl)).
Defined.

(** C5 as stated fails: a successful read on one session changes the
    dictionary another, distinct session sees, for each of the three
    methods. *)
Lemma other_session_sees_update :
  session_ui16 0 <> session_ui16 1
  /\ (result (read_data (session_ui16 0))
        (class_world [Ok []; Ok uint_frame_1_10]) = Ret (PyRef DictValues)
      /\ self_dict (exec (read_data (session_ui16 0))
                      (class_world [Ok []; Ok uint_frame_1_10]))
           (session_ui16 1) DictValues
         <> self_dict (class_world [Ok []; Ok uint_frame_1_10])
              (session_ui16 1) DictValues)
  /\ (result (read_status_register (session_ui16 0))
        (class_world [Ok []; Ok status_frame_bit21]) = Ret (PyRef DictRegister)
      /\ self_dict (exec (read_status_register (session_ui16 0))
                      (class_world [Ok []; Ok status_frame_bit21]))
           (session_ui16 1) DictRegister
         <> self_dict (class_world [Ok []; Ok status_frame_bit21])
              (session_ui16 1) DictRegister)
  /\ (result (read_firmware_version (session_ui16 0))
        (class_world [Ok []; Ok firmware_frame_2_3])
        = Ret (PyRef DictFirmwareVersion)
      /\ self_dict (exec (read_firmware_version (session_ui16 0))
                      (class_world [Ok []; Ok firmware_frame_2_3]))
           (session_ui16 1) DictFirmwareVersion
         <> self_dict (class_world [Ok []; Ok firmware_frame_2_3])
              (session_ui16 1) DictFirmwareVersion).
Proof.
  split; [discriminate|]. split; [|split].
  - split; [vm_compute; reflexivity|]. intros Heq.
    apply (f_equal (fun m : gmap string value => m !! "mc_pm1.0"%string)) in Heq.
    vm_compute in Heq. discriminate Heq.
  - split; [vm_compute; reflexivity|]. intros Heq.
    apply (f_equal (fun m : gmap string value => m !! "Fan speed error"%string)) in Heq.
    vm_compute in Heq. discriminate Heq.
  - split; [vm_compute; reflexivity|]. intros Heq.
    apply (f_equal (fun m : gmap string value => m !! "major"%string)) in Heq.
    vm_compute in Heq. discriminate Heq.
Qed.

(** * Further properties of the driver *)

(** ** The checksum is a byte *)

(** Whatever integers [_crc8] is given -- none at all, or values outside
    0..255 -- its result lies in 0..255, so [bytes] accepts it: appending a
    checksum to a command never makes the conversion fail. *)
Theorem crc8_is_a_byte (data : list Z) :
  0 <= _crc8 data < 256
  /\ exists b, byte_of_Z (_crc8 data) = Some b /\ Z_of_byte b = _crc8 data.
Proof.
  split; [apply crc8_range|]. apply byte_of_Z_in_range, crc8_range.
Qed.

(** ** [_verify_crc] decides [crc_valid] *)


Lemma verify_crc_run (data : list byte) (w : World) :
  exists evs,
    _verify_crc data w = (Ret (crc_valid data), add_events evs w)
    /\ (crc_valid data = true -> evs = []).
Proof.
  destruct (crc_valid data) eqn:Hvalid.
  - exists []. rewrite add_events_nil.
    split; [apply verify_crc_valid, Hvalid | reflexivity].
  - destruct (verify_crc_invalid data w Hvalid) as [m Hm].
    exists [EvPrint m]. split; [exact Hm | discriminate].
Qed.


(** ** A single corrupted byte is detected *)

Lemma in_byte_values (z : Z) : 0 <= z < 256 -> In z byte_values.
Proof.
  intros Hz. unfold byte_values.
  replace z with (Z.of_nat (Z.to_nat z)) by lia.
  apply in_map, in_seq. lia.
Qed.

Lemma byte_values_check (P : Z -> Z -> bool) :
  forallb (fun x => forallb (P x) byte_values) byte_values = true ->
  forall x y, 0 <= x < 256 -> 0 <= y < 256 -> P x y = true.
Proof.
  intros Hall x y Hx Hy.
  rewrite forallb_forall in Hall. specialize (Hall x (in_byte_values x Hx)).
  rewrite forallb_forall in Hall. exact (Hall y (in_byte_values y Hy)).
Qed.

Lemma crc8_byte_inj (x y : Z) :
  0 <= x < 256 -> 0 <= y < 256 -> crc8_byte x = crc8_byte y -> x = y.
Proof.
  intros Hx Hy Heq.
  assert (Hall : forallb (fun x => forallb
                   (fun y => implb (crc8_byte x =? crc8_byte y) (x =? y))
                   byte_values) byte_values = true)
    by (vm_compute; reflexivity).
  pose proof (byte_values_check _ Hall x y Hx Hy) as H.
  cbv beta in H. rewrite Heq, Z.eqb_refl in H. cbn [implb] in H.
  apply Z.eqb_eq, H.
Qed.

Lemma lxor_byte_range (x y : Z) :
  0 <= x < 256 -> 0 <= y < 256 -> 0 <= Z.lxor x y < 256.
Proof.
  intros Hx Hy.
  assert (Hall : forallb (fun x => forallb
                   (fun y => (0 <=? Z.lxor x y) && (Z.lxor x y <? 256))
                   byte_values) byte_values = true)
    by (vm_compute; reflexivity).
  pose proof (byte_values_check _ Hall x y Hx Hy) as H.
  cbv beta in H. apply andb_prop in H as [H1 H2].
  apply Z.leb_le in H1. apply Z.ltb_lt in H2. lia.
Qed.

Lemma lxor_cancel_l (c x y : Z) : Z.lxor c x = Z.lxor c y -> x = y.
Proof.
  intros H. apply (f_equal (Z.lxor c)) in H.
  rewrite <- !Z.lxor_assoc, Z.lxor_nilpotent, !Z.lxor_0_l in H. exact H.
Qed.

Lemma lxor_cancel_r (c x y : Z) : Z.lxor x c = Z.lxor y c -> x = y.
Proof. rewrite !(Z.lxor_comm _ c). apply lxor_cancel_l. Qed.

Lemma crc8_pair (a b : Z) :
  _crc8 [a; b] = crc8_byte (Z.lxor (crc8_byte (Z.lxor 0xFF a)) b).
Proof. reflexivity. Qed.

Lemma Z_of_byte_inj (a b : byte) : Z_of_byte a = Z_of_byte b -> a = b.
Proof.
  intros H. pose proof (byte_of_Z_of_byte a) as Ha.
  rewrite H, byte_of_Z_of_byte in Ha. congruence.
Qed.

Lemma crc8_pair_inj (a a' b b' : byte) :
  _crc8 (ints [a; b]) = _crc8 (ints [a'; b']) ->
  (b = b' -> a = a') /\ (a = a' -> b = b').
Proof.
  unfold ints. cbn [map]. rewrite !crc8_pair. intros H.
  pose proof (Z_of_byte_range a) as Ha. pose proof (Z_of_byte_range a') as Ha'.
  pose proof (Z_of_byte_range b) as Hb. pose proof (Z_of_byte_range b') as Hb'.
  assert (H255 : 0 <= 255 < 256) by lia.
  pose proof (crc8_byte_range (Z.lxor 255 (Z_of_byte a))) as Hc.
  pose proof (crc8_byte_range (Z.lxor 255 (Z_of_byte a'))) as Hc'.
  apply crc8_byte_inj in H; try (apply lxor_byte_range; assumption).
  split; intros ->.
  - apply lxor_cancel_r in H.
    apply crc8_byte_inj in H; try (apply lxor_byte_range; assumption).
    apply lxor_cancel_l in H. apply Z_of_byte_inj, H.
  - apply lxor_cancel_l in H. apply Z_of_byte_inj, H.
Qed.

Lemma group_corrupt (a b c : byte) :
  group_ok (a, b, c) = true ->
  forall x : byte,
    (x <> a -> group_ok (x, b, c) = false)
    /\ (x <> b -> group_ok (a, x, c) = false)
    /\ (x <> c -> group_ok (a, b, x) = false).
Proof.
  rewrite group_ok_eq. intros Hok x. apply Z.eqb_eq in Hok.
  repeat split; intros Hne; rewrite group_ok_eq; apply Z.eqb_neq; intros Hx.
  - rewrite <- Hok in Hx. apply crc8_pair_inj in Hx as [Hx _].
    apply Hne, Hx. reflexivity.
  - rewrite <- Hok in Hx. apply crc8_pair_inj in Hx as [_ Hx].
    apply Hne, Hx. reflexivity.
  - rewrite Hok in Hx. apply Z_of_byte_inj in Hx. congruence.
Qed.

Lemma chunks3_cons3 (a b c : byte) (rest : list byte) :
  chunks3 (a :: b :: c :: rest) = (a, b, c) :: chunks3 rest.
Proof. reflexivity. Qed.

Lemma insert_cons_0 {A} (x a : A) (l : list A) :
  <[0%nat := x]> (a :: l) = x :: l.
Proof. reflexivity. Qed.

Lemma insert_cons_S {A} (i : nat) (x a : A) (l : list A) :
  <[S i := x]> (a :: l) = a :: <[i := x]> l.
Proof. reflexivity. Qed.

Lemma groups_corrupt (gs : list (byte * byte * byte)) :
  forallb group_ok gs = true ->
  forall (i : nat) (b b' : byte),
    unchunks3 gs !! i = Some b -> b' <> b ->
    forallb group_ok (chunks3 (<[i := b']> (unchunks3 gs))) = false.
Proof.
  induction gs as [|[[a0 a1] c] gs IH]; intros Hok i b b' Hi Hne;
    [discriminate|].
  rewrite forallb_cons in Hok. apply andb_prop in Hok as [Hg Hrest].
  destruct (group_corrupt a0 a1 c Hg b') as (H0 & H1 & H2).
  cbn [unchunks3] in Hi |- *.
  destruct i as [|[|[|i]]]; cbn in Hi.
  - injection Hi as <-. rewrite insert_cons_0.
    rewrite chunks3_cons3, forallb_cons, (H0 Hne). reflexivity.
  - injection Hi as <-. rewrite insert_cons_S, insert_cons_0.
    rewrite chunks3_cons3, forallb_cons, (H1 Hne). reflexivity.
  - injection Hi as <-. rewrite !insert_cons_S, insert_cons_0.
    rewrite chunks3_cons3, forallb_cons, (H2 Hne). reflexivity.
  - rewrite !insert_cons_S.
    rewrite chunks3_cons3, forallb_cons.
    rewrite (IH Hrest i b b' Hi Hne). apply andb_false_r.
Qed.

(** In a frame that passes [_verify_crc], replacing any one byte -- a data
    byte or a checksum byte -- by a different value makes [_verify_crc]
    return False. *)
Theorem verify_crc_detects_single_byte (data : list byte) (i : nat)
    (b b' : byte) (w : World) :
  crc_valid data = true ->
  data !! i = Some b ->
  b' <> b ->
  crc_valid (<[i := b']> data) = false
  /\ result (_verify_crc (<[i := b']> data)) w = Ret false.
Proof.
  intros Hvalid Hi Hne.
  assert (Hbad : crc_valid (<[i := b']> data) = false).
  { unfold crc_valid in *. apply andb_prop in Hvalid as [Hlen Hgs].
    rewrite length_insert, Hlen, andb_true_l.
    apply Nat.eqb_eq in Hlen. destruct (mod3_length data Hlen) as [n Hn].
    destruct (unchunks3_chunks3 n data Hn) as [Hu _].
    assert (Hi' : unchunks3 (chunks3 data) !! i = Some b)
      by (rewrite Hu; exact Hi).
    pose proof (groups_corrupt (chunks3 data) Hgs i b b' Hi' Hne) as H.
    rewrite Hu in H. exact H. }
  split; [exact Hbad|].
  destruct (verify_crc_invalid _ w Hbad) as [m Hm].
  unfold result. rewrite Hm. reflexivity.
Qed.

Lemma verify_crc_detects_single_byte_witness :
  crc_valid uint_frame_1_10 = true
  /\ uint_frame_1_10 !! 4%nat = Some x02
  /\ crc_valid (<[4%nat := x03]> uint_frame_1_10) = false.
Proof.
  assert (Hvalid : crc_valid uint_frame_1_10 = true) by (vm_compute; reflexivity).
  assert (Hi : uint_frame_1_10 !! 4%nat = Some x02) by reflexivity.
  split; [exact Hvalid|]. split; [exact Hi|].
  refine (proj1 (verify_crc_detects_single_byte uint_frame_1_10 4 x02 x03
                   (class_world []) Hvalid Hi _)).
  discriminate.
Defined.

(** ** Big-endian words *)

Lemma Z_of_byte_of (z : Z) : 0 <= z < 256 -> Z_of_byte (byte_of z) = z.
Proof.
  intros Hz. unfold byte_of.
  destruct (byte_of_Z_in_range z Hz) as (b & Hb & Hzb). rewrite Hb. exact Hzb.
Qed.

Lemma lor_shiftl_add (hi lo k : Z) :
  0 <= k -> 0 <= lo < 2 ^ k -> Z.lor (Z.shiftl hi k) lo = hi * 2 ^ k + lo.
Proof.
  intros Hk Hlo. rewrite Z.shiftl_mul_pow2 by lia.
  assert (Hland : Z.land (hi * 2 ^ k) lo = 0).
  { apply Z.bits_inj'. intros n Hn. rewrite Z.land_spec, Z.bits_0.
    destruct (Z.ltb_spec n k) as [Hlt|Hge].
    - rewrite Z.mul_pow2_bits_low by lia. reflexivity.
    - rewrite <- (Z.mod_small lo (2 ^ k)) by lia.
      rewrite Z.mod_pow2_bits_high by lia. apply andb_false_r. }
  rewrite <- Z.lxor_lor by exact Hland.
  symmetry. apply Z.add_nocarry_lxor. exact Hland.
Qed.

(** The word [struct.unpack('>f', ...)] reads is the big-endian number of
    its four bytes. *)
Lemma word_be32 (b3 b2 b1 b0 : byte) :
  Z.lor (Z.shiftl (Z_of_byte b3) 24)
    (Z.lor (Z.shiftl (Z_of_byte b2) 16)
       (Z.lor (Z.shiftl (Z_of_byte b1) 8) (Z_of_byte b0)))
  = be32 b3 b2 b1 b0.
Proof.
  pose proof (Z_of_byte_range b3). pose proof (Z_of_byte_range b2).
  pose proof (Z_of_byte_range b1). pose proof (Z_of_byte_range b0).
  rewrite (lor_shiftl_add (Z_of_byte b1) _ 8) by (change (2 ^ 8) with 256; lia).
  rewrite (lor_shiftl_add (Z_of_byte b2) _ 16)
    by (change (2 ^ 8) with 256; change (2 ^ 16) with 65536; lia).
  rewrite (lor_shiftl_add (Z_of_byte b3) _ 24)
    by (change (2 ^ 8) with 256; change (2 ^ 16) with 65536;
        change (2 ^ 24) with 16777216; lia).
  unfold be32. change (2 ^ 8) with 256. change (2 ^ 16) with 65536.
  change (2 ^ 24) with 16777216. lia.
Qed.

Lemma be32_range (b3 b2 b1 b0 : byte) : 0 <= be32 b3 b2 b1 b0 < 4294967296.
Proof.
  pose proof (Z_of_byte_range b3). pose proof (Z_of_byte_range b2).
  pose proof (Z_of_byte_range b1). pose proof (Z_of_byte_range b0).
  unfold be32. lia.
Qed.

Lemma be32_word32 (x : Z) :
  0 <= x < 4294967296 ->
  be32 (byte_of (x / 16777216)) (byte_of ((x / 65536) mod 256))
       (byte_of ((x / 256) mod 256)) (byte_of (x mod 256)) = x.
Proof.
  intros Hx. unfold be32.
  replace (x / 65536) with (x / 256 / 256)
    by (rewrite Z.div_div by lia; reflexivity).
  replace (x / 16777216) with (x / 256 / 256 / 256)
    by (rewrite !Z.div_div by lia; reflexivity).
  rewrite !Z_of_byte_of by (Z.div_mod_to_equations; lia).
  Z.div_mod_to_equations. lia.
Qed.

Lemma be16_uint_pair (v : Z) (c : byte) :
  0 <= v < 65536 -> be16 (uint_pair v, c) = v.
Proof.
  intros Hv. unfold be16, uint_pair. cbn [fst snd].
  rewrite !Z_of_byte_of by (Z.div_mod_to_equations; lia).
  Z.div_mod_to_equations. lia.
Qed.

(** ** Integer measurements: encoding followed by decoding *)

Lemma chunks3_frame_of_pairs (pairs : list (byte * byte)) :
  chunks3 (frame_of_pairs pairs)
  = map (fun p => (fst p, snd p, crc_byte (fst p) (snd p))) pairs.
Proof. rewrite frame_of_pairs_chunks. apply chunks3_unchunks3. Qed.

Lemma frame_groups_ok (pairs : list (byte * byte)) :
  forallb group_ok (chunks3 (frame_of_pairs pairs)) = true.
Proof.
  pose proof (frame_of_pairs_valid pairs) as H. unfold crc_valid in H.
  apply andb_prop in H as [_ H]. exact H.
Qed.

Lemma filter_all {A} (f : A -> bool) (l : list A) :
  forallb f l = true -> List.filter f l = l.
Proof.
  induction l as [|x l IH]; intros H; [reflexivity|].
  rewrite forallb_cons in H. apply andb_prop in H as [Hx Hl].
  cbn [List.filter]. rewrite Hx, (IH Hl). reflexivity.
Qed.

Lemma uint_crc_events_ok (gs : list (byte * byte * byte)) :
  forallb group_ok gs = true -> forall k, uint_crc_events k gs = [].
Proof.
  induction gs as [|[[a b] c] gs IH]; intros H k; [reflexivity|].
  rewrite forallb_cons in H. apply andb_prop in H as [Hg Hgs].
  cbn [uint_crc_events]. rewrite Hg, (IH Hgs). reflexivity.
Qed.

Lemma length_frame_of_pairs (pairs : list (byte * byte)) :
  length (frame_of_pairs pairs) = (length pairs * 3)%nat.
Proof. rewrite frame_of_pairs_chunks, length_unchunks3, length_map. reflexivity. Qed.

Lemma passing_values_uint_frame (vs : list Z) :
  Forall (fun v => 0 <= v < 65536) vs ->
  passing_values (uint_frame vs) = map VInt vs.
Proof.
  intros Hvs. unfold passing_values, uint_frame.
  rewrite (filter_all _ _ (frame_groups_ok _)), chunks3_frame_of_pairs.
  rewrite !map_map.
  induction Hvs as [|v vs Hv _ IH]; [reflexivity|].
  cbn [map]. rewrite IH. f_equal. f_equal.
  apply (be16_uint_pair v _ Hv).
Qed.

(** A frame that carries any number of 16-bit values, each as two
    big-endian bytes followed by their checksum, is decoded by
    [_parse_uint_data] to exactly those values, in order, and nothing is
    printed. *)
Theorem parse_uint_data_roundtrip (vs : list Z) (w : World) :
  Forall (fun v => 0 <= v < 65536) vs ->
  _parse_uint_data (uint_frame vs) w = (Ret (map VInt vs), w).
Proof.
  intros Hvs.
  assert (Hmod : (length (uint_frame vs) mod 3 = 0)%nat).
  { unfold uint_frame. rewrite length_frame_of_pairs.
    apply Nat.Div0.mod_mul. }
  rewrite (parse_uint_data_spec _ w Hmod).
  rewrite (passing_values_uint_frame vs Hvs).
  unfold uint_frame.
  rewrite (uint_crc_events_ok _ (frame_groups_ok _)), add_events_nil.
  reflexivity.
Qed.

Lemma parse_uint_data_roundtrip_witness :
  Forall (fun v => 0 <= v < 65536) [0; 1; 256; 65535]
  /\ _parse_uint_data (uint_frame [0; 1; 256; 65535]) (class_world [])
     = (Ret [VInt 0; VInt 1; VInt 256; VInt 65535], class_world []).
Proof.
  assert (H : Forall (fun v => 0 <= v < 65536) [0; 1; 256; 65535])
    by (repeat constructor; lia).
  split; [exact H|].
  exact (parse_uint_data_roundtrip [0; 1; 256; 65535] (class_world []) H).
Defined.

(** In integer mode, when the device answers with a frame carrying ten
    16-bit values with correct checksums, [read_data] returns the
    measurement dictionary and each of the ten channel names holds its
    value, in the fixed order; the other dictionaries are untouched and
    nothing is printed. *)
Theorem read_data_ui16_all_channels (self : SPS30_I2C) (w : World)
    (ack : list byte) (vs : list Z) (rest : list outcome) :
  datatype_init self = "UI16"%string ->
  script w = Ok ack :: Ok (uint_frame vs) :: rest ->
  length vs = 10%nat ->
  Forall (fun v => 0 <= v < 65536) vs ->
  result (read_data self) w = Ret (PyRef DictValues)
  /\ (forall (j : nat) (key : string) (v : Z),
        _values_keys !! j = Some key -> vs !! j = Some v ->
        deref (exec (read_data self) w) DictValues !! key = Some (VInt v))
  /\ deref (exec (read_data self) w) DictRegister = deref w DictRegister
  /\ deref (exec (read_data self) w) DictFirmwareVersion
     = deref w DictFirmwareVersion
  /\ printed (trace (exec (read_data self) w)) = printed (trace w).
Proof.
  intros Hdt Hsc Hlen Hvs.
  assert (Hmod : (length (uint_frame vs) mod 3 = 0)%nat).
  { unfold uint_frame. rewrite length_frame_of_pairs.
    apply Nat.Div0.mod_mul. }
  unfold exec, result.
  rewrite (read_data_ui16_run self w ack _ rest Hdt Hsc Hmod).
  cbn [fst snd deref dict_values dict_register dict_firmware_version trace].
  rewrite (passing_values_uint_frame vs Hvs).
  split; [reflexivity|]. split; [|split; [reflexivity|split; [reflexivity|]]].
  - intros j key v Hj Hv.
    rewrite (assign_zip_lookup _ values_keys_NoDup _ _ j key Hj).
    rewrite list_lookup_fmap, Hv. reflexivity.
  - unfold uint_frame.
    rewrite (uint_crc_events_ok _ (frame_groups_ok _)).
    norm_trace. reflexivity.
Qed.

Lemma read_data_ui16_all_channels_witness :
  deref (exec (read_data (session_ui16 0))
           (class_world [Ok []; Ok (uint_frame [1; 2; 3; 4; 5; 6; 7; 8; 9; 1000])]))
    DictValues !! "typical_size" = Some (VInt 1000).
Proof.
  refine (proj1 (proj2
    (read_data_ui16_all_channels (session_ui16 0)
       (class_world [Ok []; Ok (uint_frame [1; 2; 3; 4; 5; 6; 7; 8; 9; 1000])])
       [] [1; 2; 3; 4; 5; 6; 7; 8; 9; 1000] [] eq_refl eq_refl eq_refl _))
    9%nat "typical_size"%string 1000 eq_refl eq_refl).
  repeat constructor; lia.
Defined.

(** ** Float measurements: what [_parse_fp32_data] returns *)

Lemma range_step_6 (n : nat) :
  range_step (n * 6) 6 = map (fun k => (k * 6)%nat) (seq 0 n).
Proof.
  unfold range_step. do 2 f_equal.
  change (6 - 1)%nat with 5%nat.
  rewrite Nat.div_add_l by discriminate. cbn. lia.
Qed.

Lemma block_at (pre rest : list byte) (b3 b2 c b1 b0 c' : byte) (k : nat) :
  length pre = (k * 6)%nat ->
  slice (k * 6) (k * 6 + 2) (pre ++ b3 :: b2 :: c :: b1 :: b0 :: c' :: rest)
    = [b3; b2]
  /\ slice (k * 6 + 3) (k * 6 + 5)
       (pre ++ b3 :: b2 :: c :: b1 :: b0 :: c' :: rest) = [b1; b0].
Proof.
  intros Hk. unfold slice. split.
  - replace (k * 6 + 2 - k * 6)%nat with 2%nat by lia.
    rewrite drop_app_length' by (symmetry; exact Hk). reflexivity.
  - replace (k * 6 + 5 - (k * 6 + 3))%nat with 2%nat by lia.
    rewrite (drop_app_add' pre _ (k * 6) 3) by (symmetry; exact Hk).
    reflexivity.
Qed.

Lemma parse_fp32_loop_spec (n : nat) :
  forall (raw pre : list byte) (k : nat) (acc : list value) (w : World),
    length raw = (n * 6)%nat ->
    length pre = (k * 6)%nat ->
    _parse_fp32_data_loop (pre ++ raw)
      (map (fun k => (k * 6)%nat) (seq k n)) acc w
    = (Ret (acc ++ fp32_values raw), w).
Proof.
  induction n as [|n IH]; intros raw pre k acc w Hraw Hpre.
  - destruct raw; [|discriminate]. cbn [seq map _parse_fp32_data_loop].
    unfold fp32_values. cbn [chunks6 map]. rewrite app_nil_r. reflexivity.
  - destruct raw as [|b3 [|b2 [|c [|b1 [|b0 [|c' raw]]]]]]; try discriminate.
    cbn [seq map _parse_fp32_data_loop].
    destruct (block_at pre raw b3 b2 c b1 b0 c' k Hpre) as [Hs1 Hs2].
    rewrite Hs1, Hs2. cbn [app unpack_f]. rewrite run_bind.
    unfold ret at 1. rewrite word_be32.
    assert (Hpre' : length (pre ++ [b3; b2; c; b1; b0; c']) = (S k * 6)%nat).
    { rewrite length_app, Hpre. cbn [length]. lia. }
    assert (Hraw' : length raw = (n * 6)%nat) by (cbn [length] in Hraw; lia).
    specialize (IH raw (pre ++ [b3; b2; c; b1; b0; c']) (S k)
                   (acc ++ [VFloat (be32 b3 b2 b1 b0)]) w Hraw' Hpre').
    rewrite <- app_assoc in IH. cbn [app] in IH. rewrite IH.
    unfold fp32_values. cbn [chunks6 map fst snd].
    rewrite <- app_assoc. reflexivity.
Qed.

(** On a frame of whole 6-byte blocks the float parser returns one value
    per block, built from bytes 0, 1, 3, 4 of the block, after whatever
    [_verify_crc] printed. *)
Lemma parse_fp32_data_spec (raw : list byte) (n : nat) (w : World) :
  length raw = (n * 6)%nat ->
  _parse_fp32_data raw w = (Ret (fp32_values raw), exec (_verify_crc raw) w).
Proof.
  intros Hlen. unfold _parse_fp32_data. rewrite run_bind. unfold exec.
  destruct (verify_crc_run raw w) as (evs & Hrun & _).
  rewrite Hrun. cbn [snd]. rewrite Hlen, range_step_6.
  exact (parse_fp32_loop_spec n raw [] 0%nat [] (add_events evs w) Hlen eq_refl).
Qed.

Lemma word32_frame_cons (x : Z) (xs : list Z) :
  word32_frame (x :: xs)
  = byte_of (x / 16777216) :: byte_of ((x / 65536) mod 256)
    :: crc_byte (byte_of (x / 16777216)) (byte_of ((x / 65536) mod 256))
    :: byte_of ((x / 256) mod 256) :: byte_of (x mod 256)
    :: crc_byte (byte_of ((x / 256) mod 256)) (byte_of (x mod 256))
    :: word32_frame xs.
Proof. reflexivity. Qed.

Lemma length_word32_frame (xs : list Z) :
  length (word32_frame xs) = (length xs * 6)%nat.
Proof.
  induction xs as [|x xs IH]; [reflexivity|].
  rewrite word32_frame_cons. cbn [length]. rewrite IH. lia.
Qed.

Lemma fp32_values_word32_frame (xs : list Z) :
  Forall (fun x => 0 <= x < 4294967296) xs ->
  fp32_values (word32_frame xs) = map VFloat xs.
Proof.
  induction 1 as [|x xs Hx _ IH]; [reflexivity|].
  rewrite word32_frame_cons. unfold fp32_values in *.
  cbn [chunks6 map fst snd]. rewrite IH, (be32_word32 x Hx). reflexivity.
Qed.

(** A frame that carries any number of 32-bit patterns, each as two
    checksummed big-endian words, is decoded by [_parse_fp32_data] to
    exactly those patterns, in order, and nothing is printed. *)
Theorem parse_fp32_data_roundtrip (xs : list Z) (w : World) :
  Forall (fun x => 0 <= x < 4294967296) xs ->
  _parse_fp32_data (word32_frame xs) w = (Ret (map VFloat xs), w).
Proof.
  intros Hxs.
  rewrite (parse_fp32_data_spec _ (length xs) w (length_word32_frame xs)).
  rewrite (fp32_values_word32_frame xs Hxs). unfold exec, word32_frame.
  rewrite (verify_crc_valid _ w (frame_of_pairs_valid _)). reflexivity.
Qed.

Lemma parse_fp32_data_roundtrip_witness :
  Forall (fun x => 0 <= x < 4294967296) [0x3F800000; 0; 0xFFFFFFFF]
  /\ _parse_fp32_data (word32_frame [0x3F800000; 0; 0xFFFFFFFF]) (class_world [])
     = (Ret [VFloat 0x3F800000; VFloat 0; VFloat 0xFFFFFFFF], class_world []).
Proof.
  assert (H : Forall (fun x => 0 <= x < 4294967296) [0x3F800000; 0; 0xFFFFFFFF])
    by (repeat constructor; lia).
  split; [exact H|].
  exact (parse_fp32_data_roundtrip [0x3F800000; 0; 0xFFFFFFFF] (class_world []) H).
Defined.

(** ** [read_data] through the float parser *)

Lemma read_data_float_run (self : SPS30_I2C) (w : World)
    (ack raw : list byte) (rest : list outcome) (n : nat) :
  String.eqb (datatype_init self) "UI16" = false ->
  script w = Ok ack :: Ok raw :: rest ->
  length raw = (n * 6)%nat ->
  exists evs,
    (crc_valid raw = true -> evs = [])
    /\ read_data self w
       = (Ret (PyRef DictValues),
          {| CMD_START_MEASUREMENT := CMD_START_MEASUREMENT w;
             dict_values :=
               assign (zip _values_keys (fp32_values raw)) (dict_values w);
             dict_register := dict_register w;
             dict_firmware_version := dict_firmware_version w;
             script := rest;
             trace := trace w ++
                      [EvWrite (i2c self) 0x69 [x03; x00; x34]; EvSleep 100;
                       EvRead (i2c self) 0x69 (nbytes_measured_values self)]
                      ++ evs |}).
Proof.
  intros Hdt Hsc Hlen. destruct w as [cmd dv dr df sc tr].
  destruct self as [bus dti dt nb]. cbn [datatype_init script] in Hdt, Hsc.
  subst sc. unfold read_data.
  change (py_bytes CMD_READ_MEASURED_VALUES) with (ret [x03; x00; x34]).
  mrun. rewrite Hdt. rewrite (parse_fp32_data_spec raw n _ Hlen).
  match goal with |- context [exec (_verify_crc raw) ?W] =>
    destruct (verify_crc_run raw W) as (evs & Hrun & Hnil)
  end.
  exists evs. split; [exact Hnil|].
  unfold exec. rewrite Hrun. mrun.
  rewrite store_values_run. unfold with_dict_values. mrun.
  rewrite <- !app_assoc. reflexivity.
Qed.

(** In float mode, when the device answers with a frame carrying ten
    32-bit patterns with correct checksums, [read_data] returns the
    measurement dictionary and each of the ten channel names holds its
    pattern, in the fixed order; the other dictionaries are untouched and
    nothing is printed. *)
Theorem read_data_fp32_all_channels (self : SPS30_I2C) (w : World)
    (ack : list byte) (xs : list Z) (rest : list outcome) :
  datatype_init self = "FP32"%string ->
  script w = Ok ack :: Ok (word32_frame xs) :: rest ->
  length xs = 10%nat ->
  Forall (fun x => 0 <= x < 4294967296) xs ->
  result (read_data self) w = Ret (PyRef DictValues)
  /\ (forall (j : nat) (key : string) (x : Z),
        _values_keys !! j = Some key -> xs !! j = Some x ->
        deref (exec (read_data self) w) DictValues !! key = Some (VFloat x))
  /\ deref (exec (read_data self) w) DictRegister = deref w DictRegister
  /\ deref (exec (read_data self) w) DictFirmwareVersion
     = deref w DictFirmwareVersion
  /\ printed (trace (exec (read_data self) w)) = printed (trace w).
Proof.
  intros Hdt Hsc Hlen Hxs.
  assert (Hdt' : String.eqb (datatype_init self) "UI16" = false)
    by (rewrite Hdt; reflexivity).
  destruct (read_data_float_run self w ack _ rest (length xs) Hdt' Hsc
              (length_word32_frame xs)) as (evs & Hnil & Hrun).
  unfold word32_frame in Hnil at 1.
  rewrite (Hnil (frame_of_pairs_valid _)) in Hrun.
  unfold exec, result. rewrite Hrun.
  cbn [fst snd deref dict_values dict_register dict_firmware_version trace].
  rewrite (fp32_values_word32_frame xs Hxs).
  split; [reflexivity|]. split; [|split; [reflexivity|split; [reflexivity|]]].
  - intros j key x Hj Hx.
    rewrite (assign_zip_lookup _ values_keys_NoDup _ _ j key Hj).
    rewrite list_lookup_fmap, Hx. reflexivity.
  - norm_trace. reflexivity.
Qed.

Lemma read_data_fp32_all_channels_witness :
  deref (exec (read_data (session_fp32 0))
           (class_world
              [Ok []; Ok (word32_frame [1; 2; 3; 4; 5; 6; 7; 8; 9; 0x3F800000])]))
    DictValues !! "typical_size" = Some (VFloat 0x3F800000).
Proof.
  refine (proj1 (proj2
    (read_data_fp32_all_channels (session_fp32 0)
       (class_world
          [Ok []; Ok (word32_frame [1; 2; 3; 4; 5; 6; 7; 8; 9; 0x3F800000])])
       [] [1; 2; 3; 4; 5; 6; 7; 8; 9; 0x3F800000] [] eq_refl eq_refl eq_refl _))
    9%nat "typical_size"%string 0x3F800000 eq_refl eq_refl).
  repeat constructor; lia.
Defined.

(** ** An unknown datatype *)

Lemma uint_frame_cons2 (a b : Z) (vs : list Z) :
  uint_frame (a :: b :: vs)
  = byte_of (a / 256) :: byte_of (a mod 256)
    :: crc_byte (byte_of (a / 256)) (byte_of (a mod 256))
    :: byte_of (b / 256) :: byte_of (b mod 256)
    :: crc_byte (byte_of (b / 256)) (byte_of (b mod 256))
    :: uint_frame vs.
Proof. reflexivity. Qed.

Lemma be32_two_uints (a b : Z) :
  0 <= a < 65536 -> 0 <= b < 65536 ->
  be32 (byte_of (a / 256)) (byte_of (a mod 256))
       (byte_of (b / 256)) (byte_of (b mod 256)) = a * 65536 + b.
Proof.
  intros Ha Hb. unfold be32.
  rewrite !Z_of_byte_of by (Z.div_mod_to_equations; lia).
  Z.div_mod_to_equations. lia.
Qed.

Lemma fp32_values_uint_frame (n : nat) :
  forall vs : list Z,
    (length vs <= n)%nat ->
    Forall (fun v => 0 <= v < 65536) vs ->
    Nat.even (length vs) = true ->
    fp32_values (uint_frame vs) = pair_words vs.
Proof.
  induction n as [|n IH]; intros vs Hlen Hvs Heven.
  - destruct vs; [reflexivity | cbn in Hlen; lia].
  - destruct vs as [|a [|b vs]]; [reflexivity | discriminate Heven |].
    inversion Hvs as [|? ? Ha Hvs']; subst.
    inversion Hvs' as [|? ? Hb Hvs'']; subst.
    rewrite uint_frame_cons2. unfold fp32_values in *.
    cbn [chunks6 map fst snd pair_words].
    rewrite (be32_two_uints a b Ha Hb). f_equal.
    apply IH; [cbn [length] in Hlen; lia | exact Hvs'' | exact Heven].
Qed.

(** For a datatype that is neither "FP32" nor "UI16", [__init__] prints
    the fallback warning and sets the integer format 0x05 and a 30-byte
    response, but keeps the given name in [datatype_init].  [read_data]
    compares that name with "UI16", so it requests 30 bytes and passes
    them to the float parser: on an integer frame of ten values, the
    first five channel names receive the values taken two at a time as
    one 32-bit pattern, and the last five keep what they held. *)
Theorem unknown_datatype_uses_float_parser (bus : nat) (dt : string)
    (w : World) (ack : list byte) (vs : list Z) (rest : list outcome) :
  dt <> "FP32"%string -> dt <> "UI16"%string ->
  __init__ bus dt w
    = (Ret (mkSPS30 bus dt 0x05 30),
       add_events [EvPrint (MsgUnknownDatatype dt)] w)
  /\ (script w = Ok ack :: Ok (uint_frame vs) :: rest ->
      length vs = 10%nat ->
      Forall (fun v => 0 <= v < 65536) vs ->
      result (read_data (mkSPS30 bus dt 0x05 30)) w = Ret (PyRef DictValues)
      /\ reads (trace (exec (read_data (mkSPS30 bus dt 0x05 30)) w))
         = reads (trace w) ++ [(bus, 0x69, 30%nat)]
      /\ length (pair_words vs) = 5%nat
      /\ forall (j : nat) (key : string),
           _values_keys !! j = Some key ->
           deref (exec (read_data (mkSPS30 bus dt 0x05 30)) w) DictValues !! key
           = match pair_words vs !! j with
             | Some v => Some v
             | None => deref w DictValues !! key
             end).
Proof.
  intros Hfp Hui.
  apply String.eqb_neq in Hfp. apply String.eqb_neq in Hui.
  split.
  - unfold __init__. rewrite Hfp, Hui. reflexivity.
  - intros Hsc Hlen Hvs.
    assert (Hlen6 : length (uint_frame vs) = (5 * 6)%nat).
    { unfold uint_frame. rewrite length_frame_of_pairs, length_map, Hlen.
      reflexivity. }
    destruct (read_data_float_run (mkSPS30 bus dt 0x05 30) w ack _ rest 5
                Hui Hsc Hlen6) as (evs & Hnil & Hrun).
    unfold uint_frame in Hnil at 1.
    rewrite (Hnil (frame_of_pairs_valid _)) in Hrun.
    unfold exec, result. rewrite Hrun.
    cbn [fst snd deref dict_values trace i2c nbytes_measured_values].
    rewrite (fp32_values_uint_frame 10 vs) by
      (first [lia | exact Hvs | rewrite Hlen; reflexivity]).
    split; [reflexivity|]. split; [|split].
    + unfold reads. rewrite !flat_map_app. cbn [flat_map app].
      rewrite ?app_nil_r. reflexivity.
    + do 11 (destruct vs as [|? vs]; try discriminate Hlen). reflexivity.
    + intros j key Hj.
      apply (assign_zip_lookup _ values_keys_NoDup _ _ j key Hj).
Qed.

Lemma unknown_datatype_uses_float_parser_witness :
  deref (exec (read_data (mkSPS30 0 "U16" 0x05 30))
           (class_world [Ok []; Ok (uint_frame [1; 2; 3; 4; 5; 6; 7; 8; 9; 10])]))
    DictValues !! "mc_pm1.0" = Some (VFloat 65538)
  /\ deref (exec (read_data (mkSPS30 0 "U16" 0x05 30))
           (class_world [Ok []; Ok (uint_frame [1; 2; 3; 4; 5; 6; 7; 8; 9; 10])]))
    DictValues !! "pc_pm1.0" = Some VNone.
Proof.
  assert (Hvs : Forall (fun v => 0 <= v < 65536) [1; 2; 3; 4; 5; 6; 7; 8; 9; 10])
    by (repeat constructor; lia).
  assert (H1 : "U16"%string <> "FP32"%string) by discriminate.
  assert (H2 : "U16"%string <> "UI16"%string) by discriminate.
  pose proof (proj2 (unknown_datatype_uses_float_parser 0 "U16"
                (class_world [Ok []; Ok (uint_frame [1; 2; 3; 4; 5; 6; 7; 8; 9; 10])])
                [] [1; 2; 3; 4; 5; 6; 7; 8; 9; 10] [] H1 H2)
              eq_refl eq_refl Hvs) as (_ & _ & _ & Hkeys).
  split.
  - exact (Hkeys 0%nat "mc_pm1.0"%string eq_refl).
  - exact (Hkeys 5%nat "pc_pm1.0"%string eq_refl).
Defined.

(** ** Methods that never raise *)

Lemma returns_ret {A} (P : A -> Prop) (a : A) : P a -> returns P (ret a).
Proof. intros Ha w. exact Ha. Qed.

Lemma returns_bind {A B} (P : B -> Prop) (m : M A) (k : A -> M B) :
  (forall a, returns P (k a)) -> returns P (m ≫= k).
Proof.
  intros Hk w. unfold result. rewrite run_bind.
  destruct (m w) as [[a|e] w']; [apply Hk | exact I].
Qed.

(** [read_data] and [start_measurement] never let an exception out,
    whatever the bus does and whatever the instance holds: [read_data]
    returns either the measurement dictionary or the empty list, and
    [start_measurement] returns None. *)
Theorem measurement_methods_never_raise (self : SPS30_I2C) (w : World) :
  (result (read_data self) w = Ret (PyRef DictValues)
   \/ result (read_data self) w = Ret (PyList []))
  /\ result (start_measurement self) w = Ret PyNone.
Proof.
  split.
  - unfold read_data, result, try_except.
    match goal with |- context [match ?body w with _ => _ end] =>
      assert (Hbody : returns (fun r => r = PyRef DictValues) body)
        by (repeat (apply returns_bind; intros ?); apply returns_ret; reflexivity);
      specialize (Hbody w); unfold result in Hbody;
      destruct (body w) as [[r|e] w']
    end.
    + left. cbn [fst] in *. congruence.
    + right. reflexivity.
  - destruct w as [cmd dv dr df sc tr]. unfold start_measurement. mrun.
    destruct (bytes_of_ints _) as [buf|]; [|reflexivity].
    destruct sc as [|[ack|] sc']; reflexivity.
Qed.

(** ** What the methods leave alone *)

Section Preserves.
Context {X : Type} (f : World -> X).

Lemma preserves_ret {A} (a : A) : preserves f (ret a).
Proof. intros w. reflexivity. Qed.

Lemma preserves_raise {A} (e : exn) : preserves f (@raise A e).
Proof. intros w. reflexivity. Qed.

Lemma preserves_bind {A B} (m : M A) (k : A -> M B) :
  preserves f m -> (forall a, preserves f (k a)) -> preserves f (m ≫= k).
Proof.
  intros Hm Hk w. unfold exec. rewrite run_bind.
  specialize (Hm w). unfold exec in Hm.
  destruct (m w) as [[a|e] w']; cbn [snd] in Hm.
  - rewrite <- Hm. apply Hk.
  - exact Hm.
Qed.

Lemma preserves_try {A} (m : M A) (h : exn -> M A) :
  preserves f m -> (forall e, preserves f (h e)) ->
  preserves f (try_except m h).
Proof.
  intros Hm Hh w. unfold exec, try_except.
  specialize (Hm w). unfold exec in Hm.
  destruct (m w) as [[a|e] w']; cbn [snd] in Hm.
  - exact Hm.
  - rewrite <- Hm. apply Hh.
Qed.

Lemma preserves_if {A} (b : bool) (m1 m2 : M A) :
  preserves f m1 -> preserves f m2 -> preserves f (if b then m1 else m2).
Proof. destruct b; auto. Qed.

Lemma preserves_index {A} (l : list A) (i : nat) : preserves f (index l i).
Proof.
  unfold index. destruct (l !! i); [apply preserves_ret | apply preserves_raise].
Qed.

Lemma preserves_py_bytes (l : list Z) : preserves f (py_bytes l).
Proof.
  unfold py_bytes.
  destruct (bytes_of_ints l); [apply preserves_ret | apply preserves_raise].
Qed.

Lemma preserves_decode_ascii (bs : list byte) : preserves f (decode_ascii bs).
Proof.
  unfold decode_ascii.
  destruct (forallb _ bs); [apply preserves_ret | apply preserves_raise].
Qed.

Lemma preserves_unpack_H (b : list byte) : preserves f (unpack_H b).
Proof.
  destruct b as [|? [|? [|? ?]]];
    first [apply preserves_ret | apply preserves_raise].
Qed.

Lemma preserves_unpack_f (b : list byte) : preserves f (unpack_f b).
Proof.
  destruct b as [|? [|? [|? [|? [|? ?]]]]];
    first [apply preserves_ret | apply preserves_raise].
Qed.

(** The loops only print. *)
Hypothesis f_print : forall m, preserves f (print m).

Lemma preserves_verify_crc_loop (data : list byte) (idxs : list nat) :
  preserves f (_verify_crc_loop data idxs).
Proof.
  induction idxs as [|i rest IH]; cbn [_verify_crc_loop].
  - apply preserves_ret.
  - apply preserves_bind; [apply preserves_index|]. intros c.
    apply preserves_if; [|exact IH].
    apply preserves_bind; [apply f_print|]. intros _. apply preserves_ret.
Qed.

Lemma preserves_verify_crc (data : list byte) : preserves f (_verify_crc data).
Proof.
  unfold _verify_crc. apply preserves_if.
  - apply preserves_bind; [apply f_print|]. intros _. apply preserves_ret.
  - apply preserves_verify_crc_loop.
Qed.

Lemma preserves_parse_uint_data_loop (raw_data : list byte) (idxs : list nat) :
  forall data_values,
    preserves f (_parse_uint_data_loop raw_data idxs data_values).
Proof.
  induction idxs as [|i rest IH]; intros data_values;
    cbn [_parse_uint_data_loop].
  - apply preserves_ret.
  - apply preserves_bind; [apply preserves_index|]. intros c.
    apply preserves_if.
    + apply preserves_bind; [apply f_print|]. intros _. apply IH.
    + apply preserves_bind; [apply preserves_unpack_H|]. intros v. apply IH.
Qed.

Lemma preserves_parse_uint_data (raw_data : list byte) :
  preserves f (_parse_uint_data raw_data).
Proof. apply preserves_parse_uint_data_loop. Qed.

Lemma preserves_parse_fp32_data_loop (raw_data : list byte) (idxs : list nat) :
  forall data_values,
    preserves f (_parse_fp32_data_loop raw_data idxs data_values).
Proof.
  induction idxs as [|i rest IH]; intros data_values;
    cbn [_parse_fp32_data_loop].
  - apply preserves_ret.
  - apply preserves_bind; [apply preserves_unpack_f|]. intros v. apply IH.
Qed.

Lemma preserves_parse_fp32_data (raw_data : list byte) :
  preserves f (_parse_fp32_data raw_data).
Proof.
  unfold _parse_fp32_data. apply preserves_bind; [apply preserves_verify_crc|].
  intros _. apply preserves_parse_fp32_data_loop.
Qed.

(** Storing values is a sequence of item assignments. *)
Lemma preserves_store_values (kvs : list (string * value)) :
  (forall key val, preserves f (set_item DictValues key val)) ->
  preserves f (store_values kvs).
Proof.
  intros Hset. induction kvs as [|[key val] kvs IH]; cbn [store_values].
  - apply preserves_ret.
  - apply preserves_bind; [apply Hset|]. intros _. exact IH.
Qed.

End Preserves.

Lemma reads_app (t1 t2 : list event) : reads (t1 ++ t2) = reads t1 ++ reads t2.
Proof. unfold reads. apply flat_map_app. Qed.

(** Primitive steps, for an observation given in the goal. *)
Ltac preserves_prim :=
  solve [ intros [? ? ? ? sc ?]; try (destruct sc as [|[?|] ?]);
          repeat match goal with d : dict_name |- _ => destruct d end;
          try congruence;
          first [ reflexivity
                | mrun; rewrite ?reads_app; cbn [reads flat_map app];
                  rewrite ?app_nil_r; reflexivity ] ].

Ltac preserves_all :=
  repeat first
    [ apply preserves_ret | apply preserves_raise | apply preserves_index
    | apply preserves_py_bytes | apply preserves_decode_ascii
    | apply preserves_unpack_H | apply preserves_unpack_f
    | apply preserves_verify_crc; intros ?
    | apply preserves_parse_uint_data; intros ?
    | apply preserves_parse_fp32_data; intros ?
    | apply preserves_store_values; intros ? ?
    | apply preserves_if
    | apply preserves_bind; [|intros ?]
    | apply preserves_try; [|intros ?]
    | match goal with
      | |- preserves _ (match ?r with _ => _ end) => destruct r
      end
    | preserves_prim ].

(** Each method changes at most its own dictionary: [read_data] only the
    measurements, [read_status_register] only the status flags,
    [read_firmware_version] only the firmware version; and
    [read_serial_number], [read_auto_cleaning_interval], [wakeup] and
    [start_measurement] change no dictionary.  Of these methods only
    [start_measurement] changes the command table.  This holds on every
    path, whether the method returns or raises. *)
Theorem methods_touch_only_their_dictionary (self : SPS30_I2C) (w : World) :
  (forall d, d <> DictValues ->
      deref (exec (read_data self) w) d = deref w d)
  /\ (forall d, d <> DictRegister ->
      deref (exec (read_status_register self) w) d = deref w d)
  /\ (forall d, d <> DictFirmwareVersion ->
      deref (exec (read_firmware_version self) w) d = deref w d)
  /\ (forall d, deref (exec (read_serial_number self) w) d = deref w d)
  /\ (forall d, deref (exec (read_auto_cleaning_interval self) w) d = deref w d)
  /\ (forall d, deref (exec (wakeup self) w) d = deref w d)
  /\ (forall d, deref (exec (start_measurement self) w) d = deref w d)
  /\ CMD_START_MEASUREMENT (exec (read_data self) w) = CMD_START_MEASUREMENT w
  /\ CMD_START_MEASUREMENT (exec (read_status_register self) w)
     = CMD_START_MEASUREMENT w
  /\ CMD_START_MEASUREMENT (exec (read_firmware_version self) w)
     = CMD_START_MEASUREMENT w
  /\ CMD_START_MEASUREMENT (exec (read_serial_number self) w)
     = CMD_START_MEASUREMENT w
  /\ CMD_START_MEASUREMENT (exec (read_auto_cleaning_interval self) w)
     = CMD_START_MEASUREMENT w
  /\ CMD_START_MEASUREMENT (exec (wakeup self) w) = CMD_START_MEASUREMENT w.
Proof.
  repeat match goal with |- _ /\ _ => split end.
  - intros d Hd. revert w.
    change (preserves (fun w => deref w d) (read_data self)).
    unfold read_data. preserves_all.
  - intros d Hd. revert w.
    change (preserves (fun w => deref w d) (read_status_register self)).
    unfold read_status_register. preserves_all.
  - intros d Hd. revert w.
    change (preserves (fun w => deref w d) (read_firmware_version self)).
    unfold read_firmware_version. preserves_all.
  - intros d. revert w.
    change (preserves (fun w => deref w d) (read_serial_number self)).
    unfold read_serial_number. preserves_all.
  - intros d. revert w.
    change (preserves (fun w => deref w d) (read_auto_cleaning_interval self)).
    unfold read_auto_cleaning_interval. preserves_all.
  - intros d. revert w.
    change (preserves (fun w => deref w d) (wakeup self)).
    unfold wakeup. preserves_all.
  - intros d. revert w.
    change (preserves (fun w => deref w d) (start_measurement self)).
    unfold start_measurement. preserves_all.
  - revert w. change (preserves CMD_START_MEASUREMENT (read_data self)).
    unfold read_data. preserves_all.
  - revert w. change (preserves CMD_START_MEASUREMENT (read_status_register self)).
    unfold read_status_register. preserves_all.
  - revert w. change (preserves CMD_START_MEASUREMENT (read_firmware_version self)).
    unfold read_firmware_version. preserves_all.
  - revert w. change (preserves CMD_START_MEASUREMENT (read_serial_number self)).
    unfold read_serial_number. preserves_all.
  - revert w.
    change (preserves CMD_START_MEASUREMENT (read_auto_cleaning_interval self)).
    unfold read_auto_cleaning_interval. preserves_all.
  - revert w. change (preserves CMD_START_MEASUREMENT (wakeup self)).
    unfold wakeup. preserves_all.
Qed.

(** ** [read_data] on the bus *)

Lemma reads_try_write_read {A} (bus : nat) (addr : Z) (buf : list byte)
    (ms n : nat) (k : list byte -> M A) (h : exn -> M A) (w : World) :
  (forall raw, preserves (fun w => reads (trace w)) (k raw)) ->
  (forall e, preserves (fun w => reads (trace w)) (h e)) ->
  reads (trace (exec (try_except
                        (writeto bus addr buf ≫= fun _ =>
                         time_sleep ms ≫= fun _ =>
                         readfrom bus addr n ≫= k) h) w))
  = reads (trace w) ++
    match nth_outcome (script w) 0 with
    | Ok _ => [(bus, addr, n)]
    | BusError => []
    end.
Proof.
  intros Hk Hh. destruct w as [cmd dv dr df sc tr].
  unfold preserves, exec in *. unfold try_except.
  destruct sc as [|[ack|] sc']; [| destruct sc' as [|[raw|] sc'] |]; mrun.
  1, 2, 4, 5: rewrite (Hh OSError); mrun; rewrite !reads_app;
    cbn [reads flat_map app]; rewrite ?app_nil_r; reflexivity.
  match goal with |- context [k raw ?W] =>
    specialize (Hk raw W); destruct (k raw W) as [[a|e] w']
  end; cbn [snd] in *.
  - rewrite Hk. mrun. rewrite !reads_app. cbn [reads flat_map app].
    rewrite ?app_nil_r. reflexivity.
  - rewrite (Hh e w'), Hk. mrun. rewrite !reads_app. cbn [reads flat_map app].
    rewrite ?app_nil_r. reflexivity.
Qed.

(** [read_data] reads from the bus only after its write was acknowledged:
    then it issues exactly one read, of the number of bytes chosen at
    construction (30 or 60); when the write raises, no read is issued. *)
Theorem read_data_reads_after_write (self : SPS30_I2C) (w : World) :
  reads (trace (exec (read_data self) w))
  = reads (trace w) ++
    match nth_outcome (script w) 0 with
    | Ok _ => [(i2c self, 0x69, nbytes_measured_values self)]
    | BusError => []
    end.
Proof.
  unfold read_data.
  change (py_bytes CMD_READ_MEASURED_VALUES) with (ret [x03; x00; x34]).
  match goal with
  | |- context [try_except (ret ?b ≫= ?f) ?h] =>
      change (try_except (ret b ≫= f) h) with (try_except (f b) h)
  end.
  cbv beta.
  apply (reads_try_write_read (i2c self) _SPS_ADDR [x03; x00; x34] 100
           (nbytes_measured_values self)).
  - intros raw. preserves_all.
  - intros e. preserves_all.
Qed.

(** ** [read_firmware_version] on every path *)

Lemma crc_valid_length (raw : list byte) :
  crc_valid raw = true -> (length raw mod 3 = 0)%nat.
Proof.
  unfold crc_valid. intros H. apply andb_prop in H as [H _].
  apply Nat.eqb_eq, H.
Qed.

(** The write of [read_firmware_version] is outside its [try], so a
    failing write raises OSError to the caller.  Once the write is
    acknowledged the method never raises: it returns None when the read
    raises, when the frame fails [_verify_crc], or when the frame is
    empty, and otherwise stores bytes 0 and 1 as major and minor version
    and returns the firmware dictionary.  The dictionary changes on that
    last path only. *)
Theorem read_firmware_version_outcomes (self : SPS30_I2C) (w : World) :
  result (read_firmware_version self) w
  = match nth_outcome (script w) 0 with
    | BusError => Raise OSError
    | Ok _ =>
        match nth_outcome (script w) 1 with
        | BusError => Ret PyNone
        | Ok raw =>
            if crc_valid raw && (2 <=? length raw)%nat
            then Ret (PyRef DictFirmwareVersion)
            else Ret PyNone
        end
    end
  /\ deref (exec (read_firmware_version self) w) DictFirmwareVersion
     = match nth_outcome (script w) 0, nth_outcome (script w) 1 with
       | Ok _, Ok raw =>
           if crc_valid raw
           then firmware_update raw (deref w DictFirmwareVersion)
           else deref w DictFirmwareVersion
       | _, _ => deref w DictFirmwareVersion
       end.
Proof.
  destruct w as [cmd dv dr df sc tr]. unfold result, exec.
  unfold read_firmware_version.
  change (py_bytes CMD_FIRMWARE_VERSION) with (ret [xd1; x00]).
  destruct sc as [|[ack|] sc']; [| destruct sc' as [|[raw|] sc'] |];
    unfold nth_outcome; cbn [script lookup list_lookup default from_option id].
  1, 2, 4, 5: mrun; split; reflexivity.
  destruct (crc_valid raw) eqn:Hvalid; cbn [andb].
  - mrun. rewrite (verify_crc_valid _ _ Hvalid). mrun.
    apply crc_valid_length in Hvalid.
    destruct raw as [|major [|minor raw]].
    + split; reflexivity.
    + discriminate Hvalid.
    + split; reflexivity.
  - mrun. destruct (verify_crc_invalid raw
              {| CMD_START_MEASUREMENT := cmd; dict_values := dv;
                 dict_register := dr; dict_firmware_version := df;
                 script := sc';
                 trace := ((tr ++ [EvWrite (i2c self) _SPS_ADDR [xd1; x00]]) ++
                           [EvPrint MsgReadingFirmware]) ++
                          [EvRead (i2c self) _SPS_ADDR NBYTES_FIRMWARE_VERSION] |}
              Hvalid) as [m Hm].
    unfold add_events in Hm. cbn [CMD_START_MEASUREMENT dict_values dict_register
      dict_firmware_version script trace] in Hm.
    rewrite Hm. mrun. split; reflexivity.
Qed.

(** ** [read_status_register] on every path *)

Lemma register_bits_lookup_rest (d0 d1 c0 d2 d3 c1 : byte) (rest : list byte) :
  register_bits (slice 0 2 (d0 :: d1 :: c0 :: d2 :: d3 :: c1 :: rest)
                 ++ slice 3 5 (d0 :: d1 :: c0 :: d2 :: d3 :: c1 :: rest))
  = register_bits (slice 0 2 [d0; d1; c0; d2; d3; c1]
                   ++ slice 3 5 [d0; d1; c0; d2; d3; c1])
  /\ forall k, status_bit (d0 :: d1 :: c0 :: d2 :: d3 :: c1 :: rest) k
               = status_bit [d0; d1; c0; d2; d3; c1] k.
Proof. split; reflexivity. Qed.

(** [read_status_register] returns None, with the status flags as they
    were, when the write or the read raises or the frame fails
    [_verify_crc].  On a frame that passes and has at least 6 bytes it
    stores the three flags and returns the dictionary.  A frame that
    passes but is shorter (0 or 3 bytes) makes the bit lookup raise
    IndexError, which is outside the [try] and reaches the caller. *)
Theorem read_status_register_outcomes (self : SPS30_I2C) (w : World) :
  result (read_status_register self) w
  = match nth_outcome (script w) 0 with
    | BusError => Ret PyNone
    | Ok _ =>
        match nth_outcome (script w) 1 with
        | BusError => Ret PyNone
        | Ok raw =>
            if crc_valid raw
            then if (6 <=? length raw)%nat
                 then Ret (PyRef DictRegister)
                 else Raise IndexError
            else Ret PyNone
        end
    end
  /\ deref (exec (read_status_register self) w) DictRegister
     = match nth_outcome (script w) 0, nth_outcome (script w) 1 with
       | Ok _, Ok raw =>
           if crc_valid raw && (6 <=? length raw)%nat
           then register_update raw (deref w DictRegister)
           else deref w DictRegister
       | _, _ => deref w DictRegister
       end.
Proof.
  destruct w as [cmd dv dr df sc tr]. unfold result, exec.
  unfold read_status_register.
  change (py_bytes CMD_READ_STATUS_REGISTER) with (ret [xd2; x06]).
  destruct sc as [|[ack|] sc']; [| destruct sc' as [|[raw|] sc'] |];
    unfold nth_outcome; cbn [script lookup list_lookup default from_option id].
  1, 2, 4, 5: mrun; split; reflexivity.
  destruct (crc_valid raw) eqn:Hvalid; cbn [andb].
  - mrun. rewrite (verify_crc_valid _ _ Hvalid). mrun.
    apply crc_valid_length in Hvalid.
    destruct raw as [|d0 [|d1 [|c0 [|d2 [|d3 [|c1 rest]]]]]];
      try discriminate Hvalid.
    + split; reflexivity.
    + split; reflexivity.
    + destruct (register_bits_lookup_rest d0 d1 c0 d2 d3 c1 rest) as [Hbits Hst].
      destruct (register_bits_lookup d0 d1 c0 d2 d3 c1) as (H21 & H5 & H4).
      cbv zeta in H21, H5, H4.
      rewrite Hbits, H21. mrun. rewrite H5. mrun. rewrite H4. mrun.
      unfold register_update. rewrite !Hst. split; reflexivity.
  - mrun.
    match goal with |- context [_verify_crc raw ?W] =>
      destruct (verify_crc_invalid raw W Hvalid) as [m Hm]
    end.
    unfold add_events in Hm. cbn [CMD_START_MEASUREMENT dict_values dict_register
      dict_firmware_version script trace] in Hm.
    rewrite Hm. mrun. split; reflexivity.
Qed.

(** ** [read_serial_number] when something fails *)

(** The write of [read_serial_number] is outside its [try]: a failing
    write raises OSError to the caller.  After an acknowledged write, a
    failing read and a frame that fails [_verify_crc] both give None. *)
Theorem read_serial_number_failures (self : SPS30_I2C) (w : World) :
  match nth_outcome (script w) 0 with
  | BusError => result (read_serial_number self) w = Raise OSError
  | Ok _ =>
      match nth_outcome (script w) 1 with
      | BusError => result (read_serial_number self) w = Ret PyNone
      | Ok raw =>
          crc_valid raw = false ->
          result (read_serial_number self) w = Ret PyNone
      end
  end.
Proof.
  destruct w as [cmd dv dr df sc tr]. unfold result.
  unfold read_serial_number.
  change (py_bytes CMD_SERIAL_NUMBER) with (ret [xd0; x33]).
  destruct sc as [|[ack|] sc']; [| destruct sc' as [|[raw|] sc'] |];
    unfold nth_outcome; cbn [script lookup list_lookup default from_option id].
  1, 2, 4, 5: mrun; reflexivity.
  intros Hvalid. mrun.
  match goal with |- context [_verify_crc raw ?W] =>
    destruct (verify_crc_invalid raw W Hvalid) as [m Hm]
  end.
  unfold add_events in Hm. cbn [CMD_START_MEASUREMENT dict_values dict_register
    dict_firmware_version script trace] in Hm.
  rewrite Hm. mrun. reflexivity.
Qed.

Lemma read_serial_number_failures_witness :
  crc_valid serial_frame_bad_crc = false
  /\ result (read_serial_number (session_ui16 0))
       (class_world [Ok []; Ok serial_frame_bad_crc]) = Ret PyNone.
Proof.
  assert (H : crc_valid serial_frame_bad_crc = false) by (vm_compute; reflexivity).
  split; [exact H|].
  exact (read_serial_number_failures (session_ui16 0)
           (class_world [Ok []; Ok serial_frame_bad_crc]) H).
Defined.

(** ** [read_auto_cleaning_interval] *)

Lemma lor_word_be32 (b3 b2 b1 b0 : byte) :
  Z.lor (Z.lor (Z.lor (Z.shiftl (Z_of_byte b3) 24) (Z.shiftl (Z_of_byte b2) 16))
           (Z.shiftl (Z_of_byte b1) 8)) (Z_of_byte b0)
  = be32 b3 b2 b1 b0.
Proof. rewrite <- !Z.lor_assoc. apply word_be32. Qed.

(** [read_auto_cleaning_interval] has no [try]: a failing write or read
    raises OSError to the caller.  A frame that fails [_verify_crc] gives
    None.  A frame that passes and has at least 6 bytes gives the
    big-endian 32-bit number of its bytes 0, 1, 3, 4; a shorter passing
    frame (0 or 3 bytes) makes the method raise IndexError. *)
Theorem read_auto_cleaning_interval_outcomes (self : SPS30_I2C) (w : World) :
  result (read_auto_cleaning_interval self) w
  = match nth_outcome (script w) 0 with
    | BusError => Raise OSError
    | Ok _ =>
        match nth_outcome (script w) 1 with
        | BusError => Raise OSError
        | Ok raw =>
            if crc_valid raw
            then if (6 <=? length raw)%nat
                 then Ret (Some (frame_word raw))
                 else Raise IndexError
            else Ret None
        end
    end.
Proof.
  destruct w as [cmd dv dr df sc tr]. unfold result.
  unfold read_auto_cleaning_interval.
  change (py_bytes CMD_AUTO_CLEANING_INTERVAL) with (ret [x80; x04]).
  destruct sc as [|[ack|] sc']; [| destruct sc' as [|[raw|] sc'] |];
    unfold nth_outcome; cbn [script lookup list_lookup default from_option id].
  1, 2, 4, 5: mrun; reflexivity.
  destruct (crc_valid raw) eqn:Hvalid.
  - mrun. rewrite (verify_crc_valid _ _ Hvalid). mrun.
    apply crc_valid_length in Hvalid.
    destruct raw as [|d0 [|d1 [|c0 [|d2 [|d3 [|c1 rest]]]]]];
      try discriminate Hvalid.
    + reflexivity.
    + reflexivity.
    + change (6 <=? length (d0 :: d1 :: c0 :: d2 :: d3 :: c1 :: rest))%nat
        with true.
      cbv iota. unfold frame_word. rewrite <- lor_word_be32. reflexivity.
  - mrun.
    match goal with |- context [_verify_crc raw ?W] =>
      destruct (verify_crc_invalid raw W Hvalid) as [m Hm]
    end.
    unfold add_events in Hm. cbn [CMD_START_MEASUREMENT dict_values dict_register
      dict_firmware_version script trace] in Hm.
    rewrite Hm. mrun. reflexivity.
Qed.

(** When the device answers with the frame of a 32-bit interval n (two
    checksummed big-endian words), [read_auto_cleaning_interval] returns
    exactly n. *)
Theorem read_auto_cleaning_interval_roundtrip (self : SPS30_I2C) (w : World)
    (ack : list byte) (n : Z) (rest : list outcome) :
  script w = Ok ack :: Ok (word32_frame [n]) :: rest ->
  0 <= n < 4294967296 ->
  result (read_auto_cleaning_interval self) w = Ret (Some n).
Proof.
  intros Hsc Hn.
  assert (Hvalid : crc_valid (word32_frame [n]) = true)
    by apply frame_of_pairs_valid.
  destruct w as [cmd dv dr df sc tr]. cbn [script] in Hsc. subst sc.
  unfold result, read_auto_cleaning_interval.
  change (py_bytes CMD_AUTO_CLEANING_INTERVAL) with (ret [x80; x04]).
  mrun. rewrite (verify_crc_valid _ _ Hvalid). mrun.
  rewrite word32_frame_cons.
  change (word32_frame []) with (@nil byte).
  match goal with |- fst ?t = _ =>
    let t' := eval cbn [slice take drop firstn skipn app flat_map range_step
                        NBYTES_AUTO_CLEANING_INTERVAL ints map seq Nat.div
                        Nat.divmod Nat.add Nat.sub Nat.mul fst snd
                        lookup list_lookup] in t in
    change (fst t' = Ret (Some n))
  end.
  cbn [fst]. rewrite lor_word_be32, (be32_word32 n Hn). reflexivity.
Qed.

Lemma read_auto_cleaning_interval_roundtrip_witness :
  result (read_auto_cleaning_interval (session_ui16 0))
    (class_world [Ok []; Ok (word32_frame [604800])]) = Ret (Some 604800).
Proof.
  apply (read_auto_cleaning_interval_roundtrip (session_ui16 0)
           (class_world [Ok []; Ok (word32_frame [604800])]) [] 604800 []).
  - reflexivity.
  - lia.
Defined.

(** ** Methods with lines of their own *)

Ltac crun :=
  cbv [execC resultC try_exceptC bindC retC lift print_line mbind MC_bind mret
       MC_ret M_bind M_ret
       exec result try_except bind ret raise emit
       print time_sleep next_outcome writeto readfrom py_bytes index set_item
       add_events negb];
  cbn [fst snd world lines CMD_START_MEASUREMENT dict_values dict_register
       dict_firmware_version script trace
       i2c datatype_init datatype nbytes_measured_values].

(** [read_data_ready_flag]: the write is outside the [try], so a failing
    write raises OSError to the caller.  After an acknowledged write the
    method never raises: it returns None when the read raises, when the
    frame fails [_verify_crc] or when it has no second byte, and otherwise
    True exactly when the second byte is 0x01 (the first byte is not
    looked at). *)
Theorem read_data_ready_flag_outcomes (self : SPS30_I2C) (c : Console) :
  resultC (read_data_ready_flag self) c
  = match nth_outcome (script (world c)) 0 with
    | BusError => Raise OSError
    | Ok _ =>
        match nth_outcome (script (world c)) 1 with
        | BusError => Ret None
        | Ok raw =>
            if crc_valid raw
            then match raw !! 1%nat with
                 | Some b1 => Ret (Some (Z_of_byte b1 =? 1))
                 | None => Ret None
                 end
            else Ret None
        end
    end.
Proof.
  destruct c as [[cmd dv dr df sc tr] ls]. unfold resultC.
  unfold read_data_ready_flag.
  change (py_bytes CMD_READ_DATA_READY_FLAG) with (ret [x02; x02]).
  destruct sc as [|[ack|] sc']; [| destruct sc' as [|[raw|] sc'] |];
    unfold nth_outcome; cbn [world script lookup list_lookup default from_option id].
  1, 2, 4, 5: crun; reflexivity.
  destruct (crc_valid raw) eqn:Hvalid.
  - crun. rewrite (verify_crc_valid _ _ Hvalid). crun.
    destruct raw as [|b0 [|b1 raw]]; cbn [lookup list_lookup].
    + reflexivity.
    + reflexivity.
    + crun. destruct (Z_of_byte b1 =? 1); reflexivity.
  - crun.
    match goal with |- context [_verify_crc raw ?W] =>
      destruct (verify_crc_invalid raw W Hvalid) as [m Hm]
    end.
    unfold add_events in Hm. cbn [CMD_START_MEASUREMENT dict_values dict_register
      dict_firmware_version script trace] in Hm.
    rewrite Hm. crun. reflexivity.
Qed.

Lemma data_chars_12 (raw : list byte) :
  length raw = 12%nat -> data_chars raw = ints (data_bytes raw).
Proof. intros Hlen. destruct_frame raw 12. reflexivity. Qed.

(** On a 12-byte frame with valid checksums and an ASCII payload,
    [read_product_type] returns the payload with whitespace stripped at
    both ends and nothing else removed (digit zeros stay, unlike in
    [read_serial_number]). *)
Theorem read_product_type_strips_whitespace (self : SPS30_I2C) (c : Console)
    (ack raw : list byte) (rest : list outcome) :
  script (world c) = Ok ack :: Ok raw :: rest ->
  length raw = 12%nat ->
  crc_valid raw = true ->
  is_ascii (data_bytes raw) = true ->
  resultC (read_product_type self) c
  = Ret (PyStr (str_strip (payload_string raw))).
Proof.
  intros Hsc Hlen Hvalid Hascii. destruct c as [[cmd dv dr df sc tr] ls].
  cbn [world script] in Hsc. subst sc.
  unfold resultC, read_product_type.
  change (py_bytes CMD_PRODUCT_TYPE) with (ret [xd0; x02]).
  crun. rewrite (verify_crc_valid _ _ Hvalid). crun.
  rewrite (data_chars_12 raw Hlen), bytes_of_ints_ints. crun.
  rewrite (decode_ascii_ok _ _ Hascii). reflexivity.
Qed.

Lemma read_product_type_strips_whitespace_witness :
  payload_string (text_frame product_type_padded) = product_type_padded
  /\ resultC (read_product_type (session_ui16 0))
       (console_of (class_world [Ok []; Ok (text_frame product_type_padded)]))
     = Ret (PyStr "000800").
Proof.
  split; [reflexivity|].
  exact (read_product_type_strips_whitespace (session_ui16 0)
           (console_of (class_world [Ok []; Ok (text_frame product_type_padded)]))
           [] (text_frame product_type_padded) []
           eq_refl eq_refl eq_refl eq_refl).
Defined.

(** [sleep], [stop_measurement], [clear_status_register] and
    [start_fan_cleaning] each make exactly one write call, carrying their
    two-byte opcode and nothing else, make no read call, never raise
    (they return None whether or not the write is acknowledged) and leave
    every dictionary as it was. *)
Theorem housekeeping_commands (self : SPS30_I2C) (c : Console) :
  (resultC (sleep self) c = Ret PyNone
   /\ writes (trace (world (execC (sleep self) c)))
      = writes (trace (world c)) ++ [(i2c self, 0x69, [x10; x01])]
   /\ reads (trace (world (execC (sleep self) c))) = reads (trace (world c))
   /\ forall d, deref (world (execC (sleep self) c)) d = deref (world c) d)
  /\ (resultC (stop_measurement self) c = Ret PyNone
      /\ writes (trace (world (execC (stop_measurement self) c)))
         = writes (trace (world c)) ++ [(i2c self, 0x69, [x01; x04])]
      /\ reads (trace (world (execC (stop_measurement self) c)))
         = reads (trace (world c))
      /\ forall d, deref (world (execC (stop_measurement self) c)) d
                   = deref (world c) d)
  /\ (resultC (clear_status_register self) c = Ret PyNone
      /\ writes (trace (world (execC (clear_status_register self) c)))
         = writes (trace (world c)) ++ [(i2c self, 0x69, [xd2; x10])]
      /\ reads (trace (world (execC (clear_status_register self) c)))
         = reads (trace (world c))
      /\ forall d, deref (world (execC (clear_status_register self) c)) d
                   = deref (world c) d)
  /\ (resultC (start_fan_cleaning self) c = Ret PyNone
      /\ writes (trace (world (execC (start_fan_cleaning self) c)))
         = writes (trace (world c)) ++ [(i2c self, 0x69, [x56; x07])]
      /\ reads (trace (world (execC (start_fan_cleaning self) c)))
         = reads (trace (world c))
      /\ forall d, deref (world (execC (start_fan_cleaning self) c)) d
                   = deref (world c) d).
Proof.
  destruct c as [[cmd dv dr df sc tr] ls].
  unfold sleep, stop_measurement, clear_status_register, start_fan_cleaning.
  change (py_bytes CMD_SLEEP) with (ret [x10; x01]).
  change (py_bytes CMD_STOP_MEASUREMENT) with (ret [x01; x04]).
  change (py_bytes CMD_CLEAR_STATUS_REGISTER) with (ret [xd2; x10]).
  change (py_bytes CMD_START_FAN_CLEANING) with (ret [x56; x07]).
  destruct sc as [|[ack|] sc']; crun;
    rewrite ?writes_app, ?reads_app;
    cbn [writes reads flat_map app]; rewrite ?app_nil_r;
    repeat match goal with |- _ /\ _ => split end;
    try reflexivity; intros []; reflexivity.
Qed.
